(** * Legal document analyzer: a model of [legal_agent_team.py] and
      [testqdrant.py]

    The program is a Streamlit script.  It keeps six values in
    [st.session_state], talks to a Qdrant vector database and to the
    phi agent library, and renders text on a page.  The model threads an
    explicit [World] through a state-and-exception monad: an exception
    keeps every effect that happened before it was raised, as in Python.

    Third-party code (qdrant_client, phi, OpenAI) is not part of the
    repository.  Simple calls into it are recorded and answered from a
    schedule of faults carried by the world, so that every call can go
    through or raise; the Qdrant service itself is a finite map from
    collection names to collections.  The two calls whose effect on the
    vector store is decided by the library ([knowledge_base.load()] and
    [Agent.run]) are operations of the [Runtime] class, together with
    [repr], [traceback.format_exc] and the name [tempfile] picks.

    Conventions: a [str] is a [string]; a value that is a [str] or [None]
    is an [option string]; [uploaded_file.name] is the base name of the
    upload, so the staged copy lies in the temporary directory.  Blocks
    of the source are named after what they do, with their line numbers
    in [legal_agent_team.py]. *)

From stdpp Require Import base strings pretty gmap list.

Set Warnings "-register-all".

(** ** Strings *)

Definition nl : string := String (Ascii.ascii_of_nat 10) EmptyString.

(** [sep.join(parts)] *)
Fixpoint join (sep : string) (parts : list string) : string :=
  match parts with
  | [] => ""
  | [p] => p
  | p :: rest => p +:+ sep +:+ join sep rest
  end.

(** [s[:n]] *)
Definition slice_to (n : nat) (s : string) : string := String.substring 0 n s.

Fixpoint is_prefix (p s : string) : bool :=
  match p, s with
  | EmptyString, _ => true
  | String a p', String b s' => if Ascii.eqb a b then is_prefix p' s' else false
  | String _ _, EmptyString => false
  end.

(** [needle in haystack] on [str] *)
Fixpoint contains (needle haystack : string) : bool :=
  if is_prefix needle haystack then true
  else match haystack with
       | EmptyString => false
       | String _ rest => contains needle rest
       end.

(** ** Exceptions *)

(** An exception object: [type(e).__name__], [str(e)] and, when the
    object has a [response] attribute, the text of [e.response.content]. *)
Record PyExc := mkExc {
  exc_type : string;
  exc_msg : string;
  exc_response : option string
}.

Definition ValueError (msg : string) : PyExc := mkExc "ValueError" msg None.
Definition Exception (msg : string) : PyExc := mkExc "Exception" msg None.
Definition TypeError (msg : string) : PyExc := mkExc "TypeError" msg None.
Definition AttributeError (attr : string) : PyExc :=
  mkExc "AttributeError" ("st.session_state has no attribute " +:+ attr) None.
Definition NoneAttributeError (attr : string) : PyExc :=
  mkExc "AttributeError" ("'NoneType' object has no attribute '" +:+ attr +:+ "'") None.
Definition UnboundLocalError (var : string) : PyExc :=
  mkExc "UnboundLocalError" ("local variable referenced before assignment: " +:+ var) None.
Definition UnexpectedResponse (msg : string) : PyExc :=
  mkExc "UnexpectedResponse" msg (Some msg).
(** [st.experimental_rerun()] stops the script by raising. *)
Definition RerunException : PyExc := mkExc "RerunException" "" None.

(** ** Objects of the phi library, as the script builds them *)

(** [Qdrant(collection=, url=, api_key=, https=, timeout=, distance=)] *)
Record Qdrant := mkQdrant {
  q_collection : string;
  q_url : option string;
  q_api_key : option string;
  q_https : bool;
  q_timeout : nat;
  q_distance : string
}.

(** [OpenAIEmbedder(model=, api_key=)] *)
Record OpenAIEmbedder := mkEmbedder {
  emb_model : string;
  emb_api_key : option string
}.

(** [PDFReader(chunk=)] *)
Record PDFReader := mkReader { chunk : bool }.

(** [PDFKnowledgeBase(path=, vector_db=, reader=, embedder=,
    recreate_vector_db=)] *)
Record PDFKnowledgeBase := mkKB {
  kb_path : string;
  kb_vector_db : option Qdrant;
  kb_reader : PDFReader;
  kb_embedder : OpenAIEmbedder;
  recreate_vector_db : bool
}.

(** [OpenAIChat(model=)] *)
Record OpenAIChat := mkChat { chat_model : string }.

Inductive Tool := DuckDuckGo.

(** [Agent(name=, role=, model=, tools=, team=, knowledge=,
    search_knowledge=, instructions=, show_tool_calls=, markdown=)];
    an argument the call leaves out has the library's default ([[]],
    [False]). *)
Inductive Agent := mkAgent {
  agent_name : string;
  agent_role : string;
  agent_model : OpenAIChat;
  agent_tools : list Tool;
  agent_team : list Agent;
  agent_knowledge : option PDFKnowledgeBase;
  search_knowledge : bool;
  agent_instructions : list string;
  show_tool_calls : bool;
  agent_markdown : bool
}.

(** One entry of [response.messages]. *)
Record Message := mkMessage {
  msg_role : string;
  msg_content : option string
}.

(** What [Agent.run] returns: [content] is [None] or a [str],
    [messages] is [None] or a list. *)
Record RunResponse := mkResponse {
  content : option string;
  messages : option (list Message)
}.

(** The file handed over by [st.file_uploader]. *)
Record UploadedFile := mkUpload {
  file_name : string;
  file_buffer : string
}.

(** ** The vector database *)

(** A stored chunk (the embedding vector itself is left out). *)
Record Point := mkPoint {
  point_doc : string;
  point_index : nat;
  point_text : string
}.

(** A collection with its [vectors_config]. *)
Record Collection := mkCollection {
  vec_size : N;
  vec_distance : string;
  points : list Point
}.

(** The Qdrant service: its collections by name, and the schedule of
    faults of the coming third-party calls ([Some e]: the call raises
    [e]; [None], or an exhausted schedule: the call goes through). *)
Record Remote := mkRemote {
  collections : gmap string Collection;
  faults : list (option PyExc)
}.

(** ** The page and the third-party calls *)

Inductive Element :=
| PageConfig (title layout : string)
| Title (s : string)
| Header (s : string)
| Write (s : string)
| Error (s : string)
| Success (s : string)
| Info (s : string)
| Warning (s : string)
| Markdown (s : string)
| Code (s : string)
| Divider
| Tabs (labels : list string)
| InTab (i : nat) (e : Element).

Inductive Call :=
| CQdrantClient (url api_key : option string) (timeout : option nat)
| CGetCollections
| CQdrant (q : Qdrant)
| CCreateCollection (name : string) (size : N) (distance : string)
| COpenWrite (path : string)
| COpenAIEmbedder (e : OpenAIEmbedder)
| CPDFReader (r : PDFReader)
| CPDFKnowledgeBase (kb : PDFKnowledgeBase)
| CLoad (kb : PDFKnowledgeBase)
| COpenAIChat (m : OpenAIChat)
| CDuckDuckGo
| CAgent (a : Agent)
| CRun (a : Agent) (prompt : string).

(** ** Session state and world *)

(** [st.session_state], with the six attributes the script uses.  A field
    is [None] while the key is absent, [Some None] when it holds Python's
    [None]. *)
Record SessionState := mkSession {
  openai_api_key : option (option string);
  qdrant_api_key : option (option string);
  qdrant_url : option (option string);
  vector_db : option (option Qdrant);
  legal_team : option (option Agent);
  knowledge_base : option (option PDFKnowledgeBase)
}.

Record World := mkWorld {
  session_state : SessionState;
  environ : gmap string string;
  page : list Element;
  stdout : list string;
  tempdirs : gmap string (gmap string string);
  remote : Remote;
  calls : list Call
}.

Definition with_session (f : SessionState → SessionState) (w : World) : World :=
  mkWorld (f (session_state w)) (environ w) (page w) (stdout w) (tempdirs w)
          (remote w) (calls w).
Definition with_environ (f : gmap string string → gmap string string) (w : World) : World :=
  mkWorld (session_state w) (f (environ w)) (page w) (stdout w) (tempdirs w)
          (remote w) (calls w).
Definition with_page (f : list Element → list Element) (w : World) : World :=
  mkWorld (session_state w) (environ w) (f (page w)) (stdout w) (tempdirs w)
          (remote w) (calls w).
Definition with_stdout (f : list string → list string) (w : World) : World :=
  mkWorld (session_state w) (environ w) (page w) (f (stdout w)) (tempdirs w)
          (remote w) (calls w).
Definition with_tempdirs
    (f : gmap string (gmap string string) → gmap string (gmap string string))
    (w : World) : World :=
  mkWorld (session_state w) (environ w) (page w) (stdout w) (f (tempdirs w))
          (remote w) (calls w).
Definition with_remote (f : Remote → Remote) (w : World) : World :=
  mkWorld (session_state w) (environ w) (page w) (stdout w) (tempdirs w)
          (f (remote w)) (calls w).
Definition with_calls (f : list Call → list Call) (w : World) : World :=
  mkWorld (session_state w) (environ w) (page w) (stdout w) (tempdirs w)
          (remote w) (f (calls w)).

(** ** The monad: state, and exceptions that keep the state *)

Definition M (A : Type) : Type := World → (PyExc + A) * World.

Definition ret {A} (a : A) : M A := λ w, (inr a, w).
Definition raise {A} (e : PyExc) : M A := λ w, (inl e, w).
Definition bind {A B} (m : M A) (k : A → M B) : M B :=
  λ w, match m w with
       | (inl e, w') => (inl e, w')
       | (inr a, w') => k a w'
       end.

(** [try: body  except Exception as e: handler e] *)
Definition try_except {A} (body : M A) (handler : PyExc → M A) : M A :=
  λ w, match body w with
       | (inl e, w') => handler e w'
       | (inr a, w') => (inr a, w')
       end.

(** [try: body  except cls as e: handler e] for one exception class *)
Definition try_except_class {A} (cls : string) (body : M A) (handler : PyExc → M A) : M A :=
  λ w, match body w with
       | (inl e, w') => if String.eqb (exc_type e) cls then handler e w'
                        else (inl e, w')
       | (inr a, w') => (inr a, w')
       end.

Declare Scope py_scope.
Delimit Scope py_scope with py.
Notation "'let*' x ':=' m 'in' k" := (bind m (λ x, k))
  (at level 10, x name, m at level 100, k at level 200) : py_scope.
Notation "m ';;' k" := (bind m (λ _, k))
  (at level 100, k at level 200, right associativity) : py_scope.
Notation "'when' b 'then' m" := (if b then m else ret tt)
  (at level 10, b at level 100, m at level 200) : py_scope.
Open Scope py_scope.

Definition modify (f : World → World) : M unit := λ w, (inr tt, f w).
Definition read {A} (f : World → A) : M A := λ w, (inr (f w), w).

(** *** Streamlit output *)

Definition render (e : Element) : M unit := modify (with_page (λ p, p ++ [e])).
Definition st_write (s : string) : M unit := render (Write s).
Definition st_error (s : string) : M unit := render (Error s).
Definition st_success (s : string) : M unit := render (Success s).
Definition st_info (s : string) : M unit := render (Info s).
Definition st_warning (s : string) : M unit := render (Warning s).
Definition st_header (s : string) : M unit := render (Header s).
Definition print (s : string) : M unit := modify (with_stdout (λ o, o ++ [s])).

(** *** [st.session_state] *)

(** Reading attribute [name]: [AttributeError] while the key is absent. *)
Definition attr {T} (name : string) (field : SessionState → option (option T))
  : M (option T) :=
  λ w, match field (session_state w) with
       | Some v => (inr v, w)
       | None => (inl (AttributeError name), w)
       end.

Definition set_openai_api_key (v : option string) (s : SessionState) : SessionState :=
  mkSession (Some v) (qdrant_api_key s) (qdrant_url s) (vector_db s) (legal_team s)
            (knowledge_base s).
Definition set_qdrant_api_key (v : option string) (s : SessionState) : SessionState :=
  mkSession (openai_api_key s) (Some v) (qdrant_url s) (vector_db s) (legal_team s)
            (knowledge_base s).
Definition set_qdrant_url (v : option string) (s : SessionState) : SessionState :=
  mkSession (openai_api_key s) (qdrant_api_key s) (Some v) (vector_db s) (legal_team s)
            (knowledge_base s).
Definition set_vector_db (v : option Qdrant) (s : SessionState) : SessionState :=
  mkSession (openai_api_key s) (qdrant_api_key s) (qdrant_url s) (Some v) (legal_team s)
            (knowledge_base s).
Definition set_legal_team (v : option Agent) (s : SessionState) : SessionState :=
  mkSession (openai_api_key s) (qdrant_api_key s) (qdrant_url s) (vector_db s) (Some v)
            (knowledge_base s).
Definition set_knowledge_base (v : option PDFKnowledgeBase) (s : SessionState) : SessionState :=
  mkSession (openai_api_key s) (qdrant_api_key s) (qdrant_url s) (vector_db s)
            (legal_team s) (Some v).

Definition assign (f : SessionState → SessionState) : M unit := modify (with_session f).

(** Truth value of a [str]-or-[None] and of an object-or-[None]. *)
Definition truthy_str (v : option string) : bool :=
  match v with
  | Some s => negb (String.eqb s "")
  | None => false
  end.
Definition truthy_obj {T} (v : option T) : bool :=
  match v with
  | Some _ => true
  | None => false
  end.

(** [f"{v}"] for a [str]-or-[None] *)
Definition fmt (v : option string) : string :=
  match v with
  | Some s => s
  | None => "None"
  end.

(** [os.environ[key] = v] accepts a [str] only. *)
Definition setenv (key : string) (v : option string) : M unit :=
  match v with
  | Some s => modify (with_environ (λ env, <[key := s]> env))
  | None => raise (TypeError "str expected, not NoneType")
  end.

(** *** Third-party calls *)

(** A call into third-party code: it is recorded, then goes through or
    raises as the schedule of faults says. *)
Definition third_party (c : Call) : M unit :=
  λ w, let w1 := with_calls (λ cs, cs ++ [c]) w in
       match faults (remote w1) with
       | Some e :: rest =>
           (inl e, with_remote (λ r, mkRemote (collections r) rest) w1)
       | None :: rest =>
           (inr tt, with_remote (λ r, mkRemote (collections r) rest) w1)
       | [] => (inr tt, w1)
       end.

(** [client.get_collections()], then [[c.name for c in
    collections.collections]] *)
Definition get_collections : M (list string) :=
  third_party CGetCollections;;
  read (λ w, elements (dom (collections (remote w)))).

Definition already_exists (name : string) : PyExc :=
  UnexpectedResponse ("Unexpected Response: 409 (Conflict): Collection `"
                      +:+ name +:+ "` already exists!").

(** [client.create_collection(collection_name=, vectors_config={"size":,
    "distance":})]: the service refuses a name that is taken (the
    response [testqdrant.py] looks for), otherwise the collection starts
    empty. *)
Definition create_collection (name : string) (size : N) (distance : string) : M unit :=
  third_party (CCreateCollection name size distance);;
  let* cs := read (λ w, collections (remote w)) in
  match cs !! name with
  | Some _ => raise (already_exists name)
  | None =>
      modify (with_remote (λ r,
        mkRemote (<[name := mkCollection size distance []]> (collections r)) (faults r)))
  end.

(** [with tempfile.TemporaryDirectory() as temp_dir: body]: the directory
    is removed with all it holds when the block is left, whichever way. *)
Definition with_TemporaryDirectory {A}
    (mkdtemp : gset string → string) (body : string → M A) : M A :=
  λ w, let temp_dir := mkdtemp (dom (tempdirs w)) in
       let '(r, w') := body temp_dir (with_tempdirs (λ t, <[temp_dir := ∅]> t) w) in
       (r, with_tempdirs (λ t, delete temp_dir t) w').

(** [os.path.join(temp_dir, name)] for the base name of an upload *)
Definition path_join (dir name : string) : string := dir +:+ "/" +:+ name.

(** [with open(path, "wb") as f: f.write(data)] for a path in the
    temporary directory [dir] *)
Definition write_file (dir path data : string) : M unit :=
  third_party (COpenWrite path);;
  modify (with_tempdirs (λ t, alter (λ files, <[path := data]> files) dir t)).

(** ** What the model takes from the platform *)

Class Runtime := {
  (** [repr] of a list of [str], as an f-string prints it *)
  repr_names : list string → string;
  (** [traceback.format_exc()] while handling [e] *)
  format_exc : PyExc → string;
  (** the name [tempfile] picks, given the directories in use *)
  mkdtemp : gset string → string;
  mkdtemp_fresh : ∀ used, mkdtemp used ∉ used;
  (** [knowledge_base.load()]: reads the files under the knowledge
      base's path and the environment, and acts on the remote services *)
  kb_load : PDFKnowledgeBase → gmap string string → gmap string string → Remote →
            (PyExc + unit) * Remote;
  (** [agent.run(prompt)] *)
  agent_run : Agent → string → gmap string string → Remote →
              (PyExc + RunResponse) * Remote
}.

Section Program.
Context `{Runtime}.

Definition load (kb : PDFKnowledgeBase) : M unit :=
  λ w, let w1 := with_calls (λ cs, cs ++ [CLoad kb]) w in
       let '(r, rem) := kb_load kb (default ∅ (tempdirs w1 !! kb_path kb))
                                (environ w1) (remote w1) in
       (r, with_remote (λ _, rem) w1).

Definition run (a : Agent) (prompt : string) : M RunResponse :=
  λ w, let w1 := with_calls (λ cs, cs ++ [CRun a prompt]) w in
       let '(r, rem) := agent_run a prompt (environ w1) (remote w1) in
       (r, with_remote (λ _, rem) w1).

(** ** [init_session_state] *)

Definition init_session_state : M unit :=
  assign (λ s,
    mkSession
      (match openai_api_key s with None => Some None | v => v end)
      (match qdrant_api_key s with None => Some None | v => v end)
      (match qdrant_url s with None => Some None | v => v end)
      (match vector_db s with None => Some None | v => v end)
      (match legal_team s with None => Some None | v => v end)
      (match knowledge_base s with None => Some None | v => v end)).

(** ** [init_qdrant] *)

(** Lines 35-47: the direct connection. *)
Definition direct_connection : M unit :=
  st_write "Testing direct connection first...";;
  let* url := attr "qdrant_url" qdrant_url in
  let* key := attr "qdrant_api_key" qdrant_api_key in
  third_party (CQdrantClient url key (Some 20));;
  let* names := get_collections in
  st_write ("Direct connection successful! Found collections: " +:+ repr_names names).

(** Lines 49-58: the phi wrapper. *)
Definition phi_wrapper : M Qdrant :=
  st_write (nl +:+ "Initializing Phi Qdrant wrapper...");;
  let* url := attr "qdrant_url" qdrant_url in
  let* key := attr "qdrant_api_key" qdrant_api_key in
  let vdb := mkQdrant "legal_knowledge" url key true 20 "cosine" in
  third_party (CQdrant vdb);;
  ret vdb.

(** Lines 60-75: the collection is created when the service does not
    list it. *)
Definition ensure_legal_knowledge : M unit :=
  st_write "Testing Phi Qdrant wrapper connection...";;
  let* collection_names := get_collections in
  st_write ("Found collections: " +:+ repr_names collection_names);;
  when negb (bool_decide ("legal_knowledge" ∈ collection_names)) then
    st_write "Creating 'legal_knowledge' collection...";;
    create_collection "legal_knowledge" 1536 "Cosine";;
    st_write "Collection created successfully!".

(** Lines 79-87: the [except] clause. *)
Definition connection_failed (e : PyExc) : M Qdrant :=
  st_error "=== Detailed Error Information ===";;
  st_error ("Error type: " +:+ exc_type e);;
  st_error ("Error message: " +:+ exc_msg e);;
  (when bool_decide (is_Some (exc_response e)) then
     st_error ("Response content: " +:+ default "" (exc_response e)));;
  st_error ("Stack trace:" +:+ nl +:+ format_exc e);;
  raise (Exception ("Qdrant connection failed: " +:+ exc_msg e)).

Definition init_qdrant : M Qdrant :=
  let* k := attr "qdrant_api_key" qdrant_api_key in
  if negb (truthy_str k) then raise (ValueError "Qdrant API key not provided") else
  let* u := attr "qdrant_url" qdrant_url in
  if negb (truthy_str u) then raise (ValueError "Qdrant URL not provided") else
  try_except
    (direct_connection;;
     let* vdb := phi_wrapper in
     ensure_legal_knowledge;;
     ret vdb)
    connection_failed.

(** ** [process_document] *)

(** Lines 113-132: the body of the [try] around the ingestion. *)
Definition ingest (temp_dir : string) (vdb : option Qdrant) : M PDFKnowledgeBase :=
  st_write "Initializing OpenAI embedder...";;
  let* key := attr "openai_api_key" openai_api_key in
  let embedder := mkEmbedder "text-embedding-3-small" key in
  third_party (COpenAIEmbedder embedder);;
  st_write "Creating knowledge base...";;
  let reader := mkReader true in
  third_party (CPDFReader reader);;
  let kb := mkKB temp_dir vdb reader embedder true in
  third_party (CPDFKnowledgeBase kb);;
  st_write "Loading knowledge base...";;
  load kb;;
  st_write "Knowledge base loaded successfully!";;
  ret kb.

(** Lines 133-137: its [except] clause. *)
Definition ingest_failed (e : PyExc) : M PDFKnowledgeBase :=
  st_error ("Detailed error: " +:+ exc_msg e);;
  st_error ("Stack trace: " +:+ format_exc e);;
  raise (Exception ("Error processing document: " +:+ exc_msg e)).

(** Lines 104-137: the block under [with tempfile.TemporaryDirectory()]. *)
Definition staged (uploaded_file : UploadedFile) (vdb : option Qdrant)
    (temp_dir : string) : M PDFKnowledgeBase :=
  st_write ("Created temporary directory: " +:+ temp_dir);;
  let temp_file_path := path_join temp_dir (file_name uploaded_file) in
  write_file temp_dir temp_file_path (file_buffer uploaded_file);;
  st_write ("Saved uploaded file to: " +:+ temp_file_path);;
  try_except (ingest temp_dir vdb) ingest_failed.

(** Lines 91-102: the checks before anything is staged. *)
Definition preflight (vdb : option Qdrant) : M unit :=
  let* k := attr "openai_api_key" openai_api_key in
  if negb (truthy_str k) then raise (ValueError "OpenAI API key not provided") else
  let* k := attr "openai_api_key" openai_api_key in
  setenv "OPENAI_API_KEY" k;;
  try_except
    (st_write "Testing Qdrant connection...";;
     let* names := (if truthy_obj vdb then get_collections
                    else raise (NoneAttributeError "client")) in
     st_write ("Available collections: " +:+ repr_names names))
    (λ e, raise (Exception ("Qdrant connection test failed: " +:+ exc_msg e))).

Definition process_document (uploaded_file : UploadedFile) (vdb : option Qdrant)
  : M PDFKnowledgeBase :=
  preflight vdb;;
  with_TemporaryDirectory mkdtemp (staged uploaded_file vdb).

(** ** [main] *)

(** The five entries of the analysis-type select box. *)
Inductive AnalysisType :=
| ContractReview | LegalResearch | RiskAssessment | ComplianceCheck | CustomQuery.

Definition analysis_name (t : AnalysisType) : string :=
  match t with
  | ContractReview => "Contract Review"
  | LegalResearch => "Legal Research"
  | RiskAssessment => "Risk Assessment"
  | ComplianceCheck => "Compliance Check"
  | CustomQuery => "Custom Query"
  end.

Definition analysis_icons (t : AnalysisType) : string :=
  match t with
  | ContractReview => "📑"
  | LegalResearch => "🔍"
  | RiskAssessment => "⚠️"
  | ComplianceCheck => "✅"
  | CustomQuery => "💭"
  end.

Record AnalysisConfig := mkConfig {
  cfg_query : option string;
  cfg_agents : list string;
  cfg_description : string
}.

Definition analysis_configs (t : AnalysisType) : AnalysisConfig :=
  match t with
  | ContractReview =>
      mkConfig
        (Some "Review this contract and identify key terms, obligations, and potential issues.")
        ["Contract Analyst"]
        "Detailed contract analysis focusing on terms and obligations"
  | LegalResearch =>
      mkConfig
        (Some "Research relevant cases and precedents related to this document.")
        ["Legal Researcher"]
        "Research on relevant legal cases and precedents"
  | RiskAssessment =>
      mkConfig
        (Some "Analyze potential legal risks and liabilities in this document.")
        ["Contract Analyst"; "Legal Strategist"]
        "Combined risk analysis and strategic assessment"
  | ComplianceCheck =>
      mkConfig
        (Some "Check this document for regulatory compliance issues.")
        ["Legal Researcher"; "Contract Analyst"; "Legal Strategist"]
        "Comprehensive compliance analysis"
  | CustomQuery =>
      mkConfig
        None
        ["Legal Researcher"; "Contract Analyst"; "Legal Strategist"]
        "Custom analysis using all available agents"
  end.

Definition is_custom (t : AnalysisType) : bool :=
  match t with
  | CustomQuery => true
  | _ => false
  end.

(** What the widgets return in one run of the script. *)
Record Widgets := mkWidgets {
  openai_key_input : string;
  qdrant_key_input : string;
  qdrant_url_input : string;
  uploaded : option UploadedFile;
  analysis_choice : AnalysisType;
  custom_query_input : string;
  analyze_clicked : bool;
  show_connection_details : bool;
  clear_clicked : bool
}.

Definition gpt_4o : OpenAIChat := mkChat "gpt-4o".

Definition indent28 : string := "                            ".
Definition indent32 : string := "                                ".

(** The three prompts, with the line breaks and indentation of the
    f-strings. *)
Definition combined_query (t : AnalysisType) (user_query : option string) : string :=
  if negb (is_custom t) then
    nl +:+ indent28 +:+ "Using the uploaded document as reference:" +:+ nl +:+
    indent28 +:+ nl +:+
    indent28 +:+ "Primary Analysis Task: " +:+ fmt (cfg_query (analysis_configs t)) +:+ nl +:+
    indent28 +:+ "Focus Areas: " +:+ join ", " (cfg_agents (analysis_configs t)) +:+ nl +:+
    indent28 +:+ nl +:+
    indent28 +:+ "Please search the knowledge base and provide specific references from the document." +:+ nl +:+
    indent28
  else
    nl +:+ indent28 +:+ "Using the uploaded document as reference:" +:+ nl +:+
    indent28 +:+ nl +:+
    indent28 +:+ fmt user_query +:+ nl +:+
    indent28 +:+ nl +:+
    indent28 +:+ "Please search the knowledge base and provide specific references from the document." +:+ nl +:+
    indent28 +:+ "Focus Areas: " +:+ join ", " (cfg_agents (analysis_configs t)) +:+ nl +:+
    indent28.

Definition key_points_prompt (t : AnalysisType) (response : RunResponse) : string :=
  "Based on this previous analysis:    " +:+ nl +:+
  indent32 +:+ fmt (content response) +:+ nl +:+
  indent32 +:+ nl +:+
  indent32 +:+ "Please summarize the key points in bullet points." +:+ nl +:+
  indent32 +:+ "Focus on insights from: " +:+ join ", " (cfg_agents (analysis_configs t)).

Definition recommendations_prompt (t : AnalysisType) (response : RunResponse) : string :=
  "Based on this previous analysis:" +:+ nl +:+
  indent32 +:+ fmt (content response) +:+ nl +:+
  indent32 +:+ nl +:+
  indent32 +:+ "What are your key recommendations based on the analysis, the best course of action?" +:+ nl +:+
  indent32 +:+ "Provide specific recommendations from: " +:+ join ", " (cfg_agents (analysis_configs t)).

(** The text of the connection-details box. *)
Definition connection_details (url : option string) (api_key : string)
    (vdb : option Qdrant) : string :=
  nl +:+ "URL: " +:+ fmt url +:+ nl +:+
  "API Key: " +:+ slice_to 8 api_key +:+ "... (truncated)" +:+ nl +:+
  "Vector DB Status: " +:+
  (if truthy_obj vdb then "Initialized" else "Not Initialized") +:+ nl +:+
  "        ".

(** [for x in xs: body x] *)
Fixpoint for_each {A} (xs : list A) (body : A → M unit) : M unit :=
  match xs with
  | [] => ret tt
  | x :: rest => body x;; for_each rest body
  end.

(** [st.session_state.legal_team.run(prompt)] *)
Definition run_team (prompt : string) : M RunResponse :=
  let* team := attr "legal_team" legal_team in
  match team with
  | Some lead => run lead prompt
  | None => raise (NoneAttributeError "run")
  end.

(** Showing a response in tab [i]: its [content] when that is truthy,
    otherwise a loop over [messages]. *)
Definition display (i : nat) (response : RunResponse) : M unit :=
  if truthy_str (content response) then
    render (InTab i (Markdown (default "" (content response))))
  else
    match messages response with
    | None => raise (TypeError "'NoneType' object is not iterable")
    | Some msgs =>
        for_each msgs (λ message,
          when String.eqb (msg_role message) "assistant"
               && truthy_str (msg_content message)
          then render (InTab i (Markdown (default "" (msg_content message)))))
    end.

(** Lines 145-172: the three credential inputs. *)
Definition credential_inputs (ui : Widgets) : M unit :=
  st_header "🔑 API Configuration";;
  let* _ := attr "openai_api_key" openai_api_key in
  (when truthy_str (Some (openai_key_input ui)) then
     assign (set_openai_api_key (Some (openai_key_input ui))));;
  let* _ := attr "qdrant_api_key" qdrant_api_key in
  (when truthy_str (Some (qdrant_key_input ui)) then
     assign (set_qdrant_api_key (Some (qdrant_key_input ui))));;
  let* _ := attr "qdrant_url" qdrant_url in
  (when truthy_str (Some (qdrant_url_input ui)) then
     assign (set_qdrant_url (Some (qdrant_url_input ui)))).

(** Lines 174-180: connecting once both Qdrant credentials are there. *)
Definition connect : M unit :=
  let* k := attr "qdrant_api_key" qdrant_api_key in
  let* u := attr "qdrant_url" qdrant_url in
  when truthy_str k && truthy_str u then
    try_except
      (let* v := attr "vector_db" vector_db in
       when negb (truthy_obj v) then
         (let* vdb := init_qdrant in
          assign (set_vector_db (Some vdb));;
          st_success "Successfully connected to Qdrant!"))
      (λ e, st_error ("Failed to connect to Qdrant: " +:+ exc_msg e)).

(** Lines 192-259: what follows [process_document] inside the [try]. *)
Definition build_team (kb : PDFKnowledgeBase) : M unit :=
  assign (set_knowledge_base (Some kb));;
  third_party (COpenAIChat gpt_4o);;
  third_party CDuckDuckGo;;
  let* session_kb := attr "knowledge_base" knowledge_base in
  let legal_researcher :=
    mkAgent "Legal Researcher" "Legal research specialist" gpt_4o [DuckDuckGo] []
            session_kb true
            ["Find and cite relevant legal cases and precedents";
             "Provide detailed research summaries with sources";
             "Reference specific sections from the uploaded document";
             "Always search the knowledge base for relevant information"]
            true true in
  third_party (CAgent legal_researcher);;
  third_party (COpenAIChat gpt_4o);;
  let contract_analyst :=
    mkAgent "Contract Analyst" "Contract analysis specialist" gpt_4o [] []
            (Some kb) true
            ["Review contracts thoroughly";
             "Identify key terms and potential issues";
             "Reference specific clauses from the document"]
            false true in
  third_party (CAgent contract_analyst);;
  third_party (COpenAIChat gpt_4o);;
  let legal_strategist :=
    mkAgent "Legal Strategist" "Legal strategy specialist" gpt_4o [] []
            (Some kb) true
            ["Develop comprehensive legal strategies";
             "Provide actionable recommendations";
             "Consider both risks and opportunities"]
            false true in
  third_party (CAgent legal_strategist);;
  third_party (COpenAIChat gpt_4o);;
  let* session_kb := attr "knowledge_base" knowledge_base in
  let lead :=
    mkAgent "Legal Team Lead" "Legal team coordinator" gpt_4o []
            [legal_researcher; contract_analyst; legal_strategist]
            session_kb true
            ["Coordinate analysis between team members";
             "Provide comprehensive responses";
             "Ensure all recommendations are properly sourced";
             "Reference specific parts of the uploaded document";
             "Always search the knowledge base before delegating tasks"]
            true true in
  third_party (CAgent lead);;
  assign (set_legal_team (Some lead));;
  st_success "✅ Document processed and team initialized!".

(** Lines 188-262: the upload is processed and the team built under one
    [try]. *)
Definition upload_block (uploaded_file : UploadedFile) : M unit :=
  try_except
    (let* vdb := attr "vector_db" vector_db in
     let* kb := process_document uploaded_file vdb in
     build_team kb)
    (λ e, st_error ("Error processing document: " +:+ exc_msg e)).

(** Lines 184-277: the rest of the sidebar.  It returns the two locals
    it binds, [uploaded_file] and [analysis_type], when it binds them. *)
Definition sidebar_document (ui : Widgets)
  : M (option (option UploadedFile * AnalysisType)) :=
  let* k := attr "openai_api_key" openai_api_key in
  let* v := attr "vector_db" vector_db in
  if truthy_str k && truthy_obj v then
    st_header "📄 Document Upload";;
    match uploaded ui with
    | Some uploaded_file => upload_block uploaded_file
    | None => ret tt
    end;;
    render Divider;;
    st_header "🔍 Analysis Options";;
    ret (Some (uploaded ui, analysis_choice ui))
  else
    st_warning "Please configure all API credentials to proceed";;
    ret None.

(** Lines 345-379: the analysis itself and its display. *)
Definition first_analysis (t : AnalysisType) (user_query : option string)
  : M RunResponse :=
  let* k := attr "openai_api_key" openai_api_key in
  setenv "OPENAI_API_KEY" k;;
  let* response := run_team (combined_query t user_query) in
  render (Tabs ["Analysis"; "Key Points"; "Recommendations"]);;
  render (InTab 0 (Markdown "### Detailed Analysis"));;
  display 0 response;;
  ret response.

(** Lines 381-395: the key-points follow-up. *)
Definition key_points (t : AnalysisType) (response : RunResponse) : M unit :=
  render (InTab 1 (Markdown "### Key Points"));;
  let* key_points_response := run_team (key_points_prompt t response) in
  display 1 key_points_response.

(** Lines 397-411: the recommendations follow-up. *)
Definition recommendations (t : AnalysisType) (response : RunResponse) : M unit :=
  render (InTab 2 (Markdown "### Recommendations"));;
  let* recommendations_response := run_team (recommendations_prompt t response) in
  display 2 recommendations_response.

(** Lines 413-414: the [except] clause of the analysis. *)
Definition analysis_failed (e : PyExc) : M unit :=
  st_error ("Error during analysis: " +:+ exc_msg e).

(** Lines 343-414: the three stages under one [try]. *)
Definition analysis_block (t : AnalysisType) (user_query : option string) : M unit :=
  try_except
    (let* response := first_analysis t user_query in
     key_points t response;;
     recommendations t response)
    analysis_failed.

(** Lines 284-414. *)
Definition analysis_section (ui : Widgets) (t : AnalysisType) : M unit :=
  st_header (analysis_icons t +:+ " " +:+ analysis_name t +:+ " Analysis");;
  st_info ("📋 " +:+ cfg_description (analysis_configs t));;
  st_write ("🤖 Active Legal AI Agents: " +:+ join ", " (cfg_agents (analysis_configs t)));;
  let user_query := if is_custom t then Some (custom_query_input ui) else None in
  when analyze_clicked ui then
    if is_custom t && negb (truthy_str user_query) then
      st_warning "Please enter a query"
    else analysis_block t user_query.

(** Lines 279-416: the main content area. *)
Definition main_content (ui : Widgets)
    (locals : option (option UploadedFile * AnalysisType)) : M unit :=
  let* k := attr "openai_api_key" openai_api_key in
  let* v := attr "vector_db" vector_db in
  if negb (truthy_str k && truthy_obj v) then
    st_info "👈 Please configure your API credentials in the sidebar to begin"
  else
    match locals with
    | None => raise (UnboundLocalError "uploaded_file")
    | Some (uploaded_file, analysis_type) =>
        if negb (truthy_obj uploaded_file) then
          st_info "👈 Please upload a legal document to begin analysis"
        else
          let* team := attr "legal_team" legal_team in
          if truthy_obj team then analysis_section ui analysis_type
          else st_info "Please upload a legal document to begin analysis"
    end.

(** Lines 421-426: the connection-details box. *)
Definition debug_info : M unit :=
  let* url := attr "qdrant_url" qdrant_url in
  let* key := attr "qdrant_api_key" qdrant_api_key in
  match key with
  | None => raise (TypeError "'NoneType' object is not subscriptable")
  | Some api_key =>
      let* vdb := attr "vector_db" vector_db in
      render (Code (connection_details url api_key vdb))
  end.

(** Lines 428-433: the Clear Credentials button. *)
Definition clear_credentials : M unit :=
  assign (set_qdrant_api_key None);;
  assign (set_qdrant_url None);;
  assign (set_vector_db None);;
  assign (set_openai_api_key None);;
  raise RerunException.

Definition main (ui : Widgets) : M unit :=
  render (PageConfig "Legal Document Analyzer" "wide");;
  init_session_state;;
  render (Title "AI Legal Agent Team 👨‍⚖️");;
  credential_inputs ui;;
  connect;;
  render Divider;;
  let* locals := sidebar_document ui in
  main_content ui locals;;
  render Divider;;
  st_header "🔧 Debug Info";;
  (when show_connection_details ui then debug_info);;
  when clear_clicked ui then clear_credentials.

(** ** [testqdrant.py], for the URL and API key written in the script *)

Definition testqdrant (url api_key : string) : M unit :=
  try_except
    (third_party (CQdrantClient (Some url) (Some api_key) None);;
     print "Testing connection...";;
     let* names := get_collections in
     print ("Successfully connected to Qdrant! Found " +:+ pretty (length names)
            +:+ " collections");;
     print (nl +:+ "Listing collections:");;
     for_each names (λ name, print ("- " +:+ name));;
     print (nl +:+ "Trying to create a collection...");;
     try_except_class "UnexpectedResponse"
       (create_collection "legal_knowledge" 1536 "Cosine";;
        print "Collection 'legal_knowledge' created successfully!")
       (λ e, if contains "already exists" (exc_msg e)
             then print "Collection 'legal_knowledge' already exists"
             else raise e))
    (λ e, print ("Error connecting to Qdrant: " +:+ exc_msg e)).

End Program.

(** ** Vocabulary of the statements *)

(** [m] keeps [R]: the world a run of [m] ends in, by return or by
    exception, is [R]-related to the world it started in. *)
Definition keeps {A} (R : relation World) (m : M A) : Prop :=
  ∀ w, R w (m w).2.

(** The part [f] of the world is the same. *)
Definition same_on {B} (f : World → B) : relation World :=
  λ w w', f w' = f w.

(** Every collection is still there, with the same contents. *)
Definition store_grows : relation World :=
  λ w w', collections (remote w) ⊆ collections (remote w').

(** What was on the page is still on the page. *)
Definition page_grows : relation World :=
  λ w w', page w `prefix_of` page w'.

(** Temporary directories other than [d] are the same. *)
Definition tempdirs_same_off (d : string) : relation World :=
  λ w w', ∀ k, k ≠ d → tempdirs w' !! k = tempdirs w !! k.

(** The world after the third-party call [c] went through. *)
Definition advance (c : Call) (w : World) : World :=
  mkWorld (session_state w) (environ w) (page w) (stdout w) (tempdirs w)
          (mkRemote (collections (remote w)) (tail (faults (remote w))))
          (calls w ++ [c]).

Definition is_agent_call (c : Call) : bool :=
  match c with
  | CAgent _ => true
  | _ => false
  end.

(** The agents constructed so far. *)
Definition agents_built (w : World) : list Call := filter is_agent_call (calls w).

(** No fault is scheduled for the next [n] third-party calls. *)
Fixpoint calm (n : nat) (schedule : list (option PyExc)) : bool :=
  match n, schedule with
  | O, _ => true
  | S _, [] => true
  | S n', None :: rest => calm n' rest
  | S _, Some _ :: _ => false
  end.

(** The texts [display] puts in a tab when [content] is not truthy. *)
Definition assistant_texts (msgs : list Message) : list string :=
  omap (λ m, if String.eqb (msg_role m) "assistant" && truthy_str (msg_content m)
             then msg_content m else None) msgs.




(** Every attribute the script reads is in the session state. *)
Definition present (w : World) : Prop :=
  is_Some (openai_api_key (session_state w))
  ∧ is_Some (qdrant_api_key (session_state w))
  ∧ is_Some (qdrant_url (session_state w))
  ∧ is_Some (vector_db (session_state w))
  ∧ is_Some (legal_team (session_state w))
  ∧ is_Some (knowledge_base (session_state w)).

(** The attributes that are there stay there. *)
Definition stays_present : relation World := λ w w', present w → present w'.

(** Under [present], [m] returns and leaves a world that is [present]. *)
Definition returns {A} (m : M A) : Prop :=
  ∀ w, present w → present (m w).2 ∧ ∃ a, (m w).1 = inr a.

Definition is_run_call (c : Call) : bool :=
  match c with
  | CRun _ _ => true
  | _ => false
  end.

(** The calls that stage or ingest a document. *)
Definition is_ingest_call (c : Call) : bool :=
  match c with
  | COpenWrite _ | CLoad _ => true
  | _ => false
  end.

Definition runs_made (w : World) : list Call := List.filter is_run_call (calls w).
Definition ingest_calls (w : World) : list Call := List.filter is_ingest_call (calls w).

(** The test of lines 184 and 280: an OpenAI key and a vector database. *)
Definition configured (w : World) : bool :=
  truthy_str (default None (openai_api_key (session_state w)))
  && truthy_obj (default None (vector_db (session_state w))).


(** What a credential is after its text input returned [input]. *)
Definition typed (input : string) (stored : option string) : option string :=
  if String.eqb input "" then stored else Some input.

(** [Agent.run] does not write to the vector store. *)
Definition run_reads_only `{Runtime} : Prop :=
  ∀ a prompt env r, collections (agent_run a prompt env r).2 = collections r.

(** ** A concrete platform, to run the model on examples *)

Module Lab.

(** [repr] of a list of plain names. *)
Definition repr_plain (names : list string) : string :=
  "[" +:+ join ", " (map (λ n, "'" +:+ n +:+ "'") names) +:+ "]".

Definition traceback_of (e : PyExc) : string :=
  "Traceback (most recent call last):" +:+ nl +:+ exc_type e +:+ ": " +:+ exc_msg e.

Definition tmp_name (used : gset string) : string := fresh used.

Definition pop_fault (r : Remote) : option PyExc * Remote :=
  match faults r with
  | f :: rest => (f, mkRemote (collections r) rest)
  | [] => (None, r)
  end.

(** A file reads as a PDF when it starts with the PDF magic number. *)
Definition readable (data : string) : bool := is_prefix "%PDF" data.

Definition chunks_of (files : gmap string string) : list Point :=
  map (λ f, mkPoint f.1 0 f.2) (map_to_list files).

Definition target (kb : PDFKnowledgeBase) : string :=
  match kb_vector_db kb with
  | Some q => q_collection q
  | None => "default"
  end.

(** Loading as section 4.2 of the specification describes ingestion:
    every file is read before anything is written, an unreadable file
    aborts the load, and the chunks replace the collection's points on
    recreation and are added to them otherwise. *)
Definition load_pdfs (kb : PDFKnowledgeBase) (files env : gmap string string) (r : Remote)
  : (PyExc + unit) * Remote :=
  match pop_fault r with
  | (Some e, r') => (inl e, r')
  | (None, r') =>
      if forallb (λ f, readable f.2) (map_to_list files) then
        let old := default (mkCollection 1536 "Cosine" []) (collections r' !! target kb) in
        let kept := if recreate_vector_db kb then [] else points old in
        (inr tt,
         mkRemote (<[target kb := mkCollection (vec_size old) (vec_distance old)
                                               (kept ++ chunks_of files)]> (collections r'))
                  (faults r'))
      else (inl (mkExc "PdfReadError" "EOF marker not found" None), r')
  end.

(** An agent that answers with its name and the prompt it was given. *)
Definition echo_agent (a : Agent) (prompt : string) (env : gmap string string) (r : Remote)
  : (PyExc + RunResponse) * Remote :=
  match pop_fault r with
  | (Some e, r') => (inl e, r')
  | (None, r') => (inr (mkResponse (Some (agent_name a +:+ ": " +:+ prompt)) None), r')
  end.

Definition runtime : Runtime :=
  {| repr_names := repr_plain;
     format_exc := traceback_of;
     mkdtemp := tmp_name;
     mkdtemp_fresh := is_fresh;
     kb_load := load_pdfs;
     agent_run := echo_agent |}.

Definition empty_session : SessionState := mkSession None None None None None None.

Definition fresh_world : World :=
  mkWorld empty_session ∅ [] [] ∅ (mkRemote ∅ []) [].

Definition keyed_session : SessionState :=
  mkSession (Some (Some "sk-test-openai-key")) (Some (Some "qdrant-secret-key-0123456789"))
            (Some (Some "https://qdrant.example:6333")) (Some None) (Some None) (Some None).

Definition keyed_world : World :=
  mkWorld keyed_session ∅ [] [] ∅ (mkRemote ∅ []) [].

Definition contract_pdf : UploadedFile := mkUpload "contract.pdf" "%PDF-1.7 lease agreement".
Definition corrupted_pdf : UploadedFile := mkUpload "broken.pdf" "not a pdf at all".


Definition two_drafts : RunResponse :=
  mkResponse None
    (Some [mkMessage "assistant" (Some "draft");
           mkMessage "user" (Some "please revise");
           mkMessage "assistant" (Some "final")]).

(** A service that already has a [legal_knowledge] collection, made for
    768-dimensional vectors compared by Euclidean distance. *)
Definition mismatched_world : World :=
  mkWorld keyed_session ∅ [] [] ∅
          (mkRemote {["legal_knowledge" := mkCollection 768 "Euclid"
                        [mkPoint "old.pdf" 0 "an older document"]]} [])
          [].


Definition the_vdb : Qdrant :=
  mkQdrant "legal_knowledge" (Some "https://qdrant.example:6333")
           (Some "qdrant-secret-key-0123456789") true 20 "cosine".

(** A session that is connected, on a service that has the collection. *)
Definition connected_world : World :=
  mkWorld (mkSession (Some (Some "sk-test-openai-key"))
                     (Some (Some "qdrant-secret-key-0123456789"))
                     (Some (Some "https://qdrant.example:6333"))
                     (Some (Some the_vdb)) (Some None) (Some None))
          ∅ [] [] ∅
          (mkRemote {["legal_knowledge" := mkCollection 1536 "Cosine"
                        [mkPoint "old.pdf" 0 "an older document"]]} [])
          [].

(** The same session once a team lead has been stored. *)
Definition lead : Agent :=
  mkAgent "Legal Team Lead" "Legal team coordinator" gpt_4o [] [] None true [] true true.

Definition ready_world (schedule : list (option PyExc)) : World :=
  mkWorld (mkSession (Some (Some "sk-test-openai-key"))
                     (Some (Some "qdrant-secret-key-0123456789"))
                     (Some (Some "https://qdrant.example:6333"))
                     (Some (Some the_vdb)) (Some (Some lead)) (Some None))
          ∅ [] [] ∅
          (mkRemote {["legal_knowledge" := mkCollection 1536 "Cosine" []]} schedule)
          [].


(** A session right after [init_session_state]: every attribute [None]. *)
Definition started_world : World :=
  mkWorld (mkSession (Some None) (Some None) (Some None) (Some None) (Some None) (Some None))
          ∅ [] [] ∅ (mkRemote ∅ []) [].

Definition timed_out : PyExc := mkExc "ResponseHandlingException" "timed out" None.

(** Credentials in the session, and a service that does not answer. *)
Definition unreachable_world : World :=
  mkWorld keyed_session ∅ [] [] ∅ (mkRemote ∅ [Some timed_out]) [].

(** A new OpenAI key typed, the other inputs left empty. *)
Definition typing_ui : Widgets :=
  mkWidgets "sk-another-openai-key" "" "" None ContractReview "" false false false.

(** Analyze clicked in a run without an upload. *)
Definition analyze_ui : Widgets :=
  mkWidgets "" "" "" None ContractReview "" true false false.

(** A document uploaded, Analyze not clicked. *)
Definition upload_ui : Widgets :=
  mkWidgets "" "" "" (Some contract_pdf) ContractReview "" false false false.

End Lab.

(** * [patch_phi.py]

    A path is the list of its components, [p / name] adds one and
    [p.parent] drops the last; it prints as the components joined by
    "/".  The disk maps the paths of the files that exist to their
    contents.  [shutil.copy2] and the two [open] calls can fail, as the
    schedule of the disk says; [re.sub] is a parameter. *)

Module PatchPhi.

Record Host := mkHost {
  (** [site.getsitepackages()] *)
  getsitepackages : list (list string);
  (** [Path(sys.prefix)] *)
  prefix : list string;
  (** [Path.home()] *)
  home : list string
}.

Record Disk := mkDisk {
  files : gmap (list string) string;
  printed : list string;
  io_faults : list (option PyExc)
}.

Definition FileNotFoundError (msg : string) : PyExc := mkExc "FileNotFoundError" msg None.
Definition IndexError (msg : string) : PyExc := mkExc "IndexError" msg None.

Definition show (p : list string) : string := join "/" p.

Definition say (line : string) (d : Disk) : Disk :=
  mkDisk (files d) (printed d ++ [line]) (io_faults d).

(** [path.exists()] *)
Definition exists_ (p : list string) (fs : gmap (list string) string) : bool :=
  bool_decide (is_Some (fs !! p)).

(** The three places looked at, in the order of the list at lines 9-16. *)
Definition possible_paths (h : Host) (site0 : list string) : list (list string) :=
  [site0 ++ ["phi"; "utils.py"];
   prefix h ++ ["lib"; "python3.11"; "site-packages"; "phi"; "utils.py"];
   home h ++ [".local"; "lib"; "python3.11"; "site-packages"; "phi"; "utils.py"]].

Definition find_phi_utils (h : Host) (fs : gmap (list string) string)
  : PyExc + list string :=
  match getsitepackages h with
  | [] => inl (IndexError "list index out of range")
  | site0 :: _ =>
      match List.find (λ path, exists_ path fs) (possible_paths h site0) with
      | Some path => inr path
      | None =>
          inl (FileNotFoundError
                 "Could not find phi/utils.py. Please ensure phi-ai is installed.")
      end
  end.

(** One call that touches the disk: it goes through or raises. *)
Definition io (d : Disk) : option PyExc * Disk :=
  match io_faults d with
  | fault :: rest => (fault, mkDisk (files d) (printed d) rest)
  | [] => (None, d)
  end.

(** [shutil.copy2(src, dst)] *)
Definition copy2 (src dst : list string) (d : Disk) : (PyExc + unit) * Disk :=
  match io d with
  | (Some e, d') => (inl e, d')
  | (None, d') =>
      match files d' !! src with
      | Some data => (inr tt, mkDisk (<[dst := data]> (files d')) (printed d') (io_faults d'))
      | None => (inl (FileNotFoundError (show src)), d')
      end
  end.

(** [with open(path, 'r') as f: f.read()] *)
Definition read_text (path : list string) (d : Disk) : (PyExc + string) * Disk :=
  match io d with
  | (Some e, d') => (inl e, d')
  | (None, d') =>
      match files d' !! path with
      | Some data => (inr data, d')
      | None => (inl (FileNotFoundError (show path)), d')
      end
  end.

(** [with open(path, 'w') as f: f.write(data)] *)
Definition write_text (path : list string) (data : string) (d : Disk)
  : (PyExc + unit) * Disk :=
  match io d with
  | (Some e, d') => (inl e, d')
  | (None, d') => (inr tt, mkDisk (<[path := data]> (files d')) (printed d') (io_faults d'))
  end.

Definition is_space (a : Ascii.ascii) : bool :=
  let n := Ascii.nat_of_ascii a in
  (n =? 32) || ((9 <=? n) && (n <=? 13)) || ((28 <=? n) && (n <=? 31)).

Fixpoint lstrip (s : string) : string :=
  match s with
  | String a rest => if is_space a then lstrip rest else s
  | EmptyString => EmptyString
  end.

Fixpoint rstrip (s : string) : string :=
  match s with
  | String a rest =>
      match rstrip rest with
      | EmptyString => if is_space a then EmptyString else String a EmptyString
      | kept => String a kept
      end
  | EmptyString => EmptyString
  end.

(** [s.strip()] *)
Definition strip (s : string) : string := rstrip (lstrip s).

Definition quotes : string :=
  let q := Ascii.ascii_of_nat 34 in String q (String q (String q EmptyString)).

(** The replacement text, lines 42-62. *)
Definition new_method : string :=
  nl +:+ join nl
    ["def get_method_sig(method):";
     "    " +:+ quotes +:+ "Get method signature information." +:+ quotes;
     "    try:";
     "        # Use getfullargspec instead of deprecated getargspec";
     "        argspec = inspect.getfullargspec(method)";
     "        # Convert to format expected by rest of phi library";
     "        return {";
     "            'args': argspec.args,";
     "            'varargs': argspec.varargs,";
     "            'keywords': argspec.varkw,";
     "            'defaults': argspec.defaults or ()";
     "        }";
     "    except Exception:";
     "        return {";
     "            'args': [],";
     "            'varargs': None, ";
     "            'keywords': None,";
     "            'defaults': ()";
     "        }"] +:+ nl.

Definition pattern : string := "def get_method_sig\([^)]*\):.*?(?=\n\S)".

(** Lines 37-39: the import is added when the text does not have it. *)
Definition with_import (content : string) : string :=
  if negb (contains "import inspect" content) then "import inspect" +:+ nl +:+ content
  else content.

Section Patch.
(** [re.sub(pattern, repl, string, flags=re.DOTALL)] *)
Variable re_sub : string → string → string → string.

Definition apply_patch (h : Host) (d : Disk) : (PyExc + unit) * Disk :=
  match find_phi_utils h (files d) with
  | inl e => (inl e, d)
  | inr utils_path =>
      let backup_path := removelast utils_path ++ ["utils.py.backup"] in
      let d := say ("Creating backup at " +:+ show backup_path) d in
      match copy2 utils_path backup_path d with
      | (inl e, d) => (inl e, d)
      | (inr _, d) =>
          match read_text utils_path d with
          | (inl e, d) => (inl e, d)
          | (inr content, d) =>
              let content := with_import content in
              let new_content := re_sub pattern (strip new_method) content in
              let d := say ("Updating " +:+ show utils_path) d in
              match write_text utils_path new_content d with
              | (inl e, d) => (inl e, d)
              | (inr _, d) =>
                  let d := say "Patch applied successfully!" d in
                  let d := say ("Backup saved at: " +:+ show backup_path) d in
                  (inr tt, d)
              end
          end
      end
  end.

(** Lines 77-82: the script; it returns the exit status. *)
Definition script (h : Host) (d : Disk) : nat * Disk :=
  match apply_patch h d with
  | (inr _, d) => (0, d)
  | (inl e, d) => (1, say ("Error applying patch: " +:+ exc_msg e) d)
  end.

End Patch.

(** A host with phi installed under the user's home only, and a
    stand-in for [re.sub] that brackets the text it is given. *)
Definition sample_host : Host :=
  mkHost [["usr"; "lib"; "python3"; "dist-packages"]] ["usr"] ["home"; "ana"].

Definition user_utils : list string :=
  ["home"; "ana"; ".local"; "lib"; "python3.11"; "site-packages"; "phi"; "utils.py"].

Definition user_backup : list string :=
  ["home"; "ana"; ".local"; "lib"; "python3.11"; "site-packages"; "phi"; "utils.py.backup"].

Definition sample_disk : Disk :=
  mkDisk {[user_utils := "def get_method_sig(m):" +:+ nl +:+ "    pass" +:+ nl]} [] [].

Definition bare_disk : Disk := mkDisk ∅ [] [].


Definition bracket (pat repl text : string) : string := "<" +:+ text +:+ ">".

End PatchPhi.

(** * Properties *)

(** ** Rules for [keeps] *)

Section Keeps.
Context (R : relation World) `{!PreOrder R}.

Lemma keeps_ret {A} (a : A) : keeps R (ret a).
Proof. intros w. reflexivity. Qed.

Lemma keeps_raise {A} (e : PyExc) : keeps R (@raise A e).
Proof. intros w. reflexivity. Qed.

Lemma keeps_read {A} (f : World → A) : keeps R (read f).
Proof. intros w. reflexivity. Qed.

Lemma keeps_attr {T} name (field : SessionState → option (option T)) :
  keeps R (attr name field).
Proof. intros w. unfold attr. destruct (field _); reflexivity. Qed.

Lemma keeps_modify (f : World → World) : (∀ w, R w (f w)) → keeps R (modify f).
Proof. intros Hf w. apply Hf. Qed.

Lemma keeps_bind {A B} (m : M A) (k : A → M B) :
  keeps R m → (∀ a, keeps R (k a)) → keeps R (bind m k).
Proof.
  intros Hm Hk w. unfold bind.
  specialize (Hm w). destruct (m w) as [[e|a] w1]; simpl in *; [done|].
  etrans; [exact Hm | apply Hk].
Qed.

Lemma keeps_try_except {A} (body : M A) (handler : PyExc → M A) :
  keeps R body → (∀ e, keeps R (handler e)) → keeps R (try_except body handler).
Proof.
  intros Hb Hh w. unfold try_except.
  specialize (Hb w). destruct (body w) as [[e|a] w1]; simpl in *; [|done].
  etrans; [exact Hb | apply Hh].
Qed.

Lemma keeps_try_except_class {A} cls (body : M A) (handler : PyExc → M A) :
  keeps R body → (∀ e, keeps R (handler e)) →
  keeps R (try_except_class cls body handler).
Proof.
  intros Hb Hh w. unfold try_except_class.
  specialize (Hb w). destruct (body w) as [[e|a] w1]; simpl in *; [|done].
  destruct (String.eqb _ _); [|done].
  etrans; [exact Hb | apply Hh].
Qed.

Lemma keeps_for_each {A} (xs : list A) (body : A → M unit) :
  (∀ x, keeps R (body x)) → keeps R (for_each xs body).
Proof.
  intros Hb. induction xs as [|x xs IH]; simpl.
  - apply keeps_ret.
  - apply keeps_bind; [apply Hb | intros _; exact IH].
Qed.

Lemma keeps_with_TemporaryDirectory {A} pick (body : string → M A) :
  (∀ f w, R w (with_tempdirs f w)) →
  (∀ d, keeps R (body d)) →
  keeps R (with_TemporaryDirectory pick body).
Proof.
  intros Htmp Hb w. unfold with_TemporaryDirectory.
  set (d := pick _). set (w0 := with_tempdirs _ w).
  specialize (Hb d w0). destruct (body d w0) as [r w1]; simpl in *.
  etrans; [apply (Htmp (λ t, <[d:=∅]> t)) |]. fold w0.
  etrans; [exact Hb | apply Htmp].
Qed.

End Keeps.

Global Instance same_on_preorder {B} (f : World → B) : PreOrder (same_on f).
Proof.
  split; [intros w; reflexivity |].
  intros w1 w2 w3 H1 H2. unfold same_on in *. congruence.
Qed.

Global Instance store_grows_preorder : PreOrder store_grows.
Proof.
  split; [intros w; unfold store_grows; reflexivity |].
  intros w1 w2 w3 H1 H2. unfold store_grows in *. etrans; eassumption.
Qed.

Global Instance page_grows_preorder : PreOrder page_grows.
Proof.
  split; [intros w; unfold page_grows; reflexivity |].
  intros w1 w2 w3 H1 H2. unfold page_grows in *. etrans; eassumption.
Qed.

Global Instance tempdirs_same_off_preorder d : PreOrder (tempdirs_same_off d).
Proof.
  split; [intros w k _; reflexivity |].
  intros w1 w2 w3 H1 H2 k Hk. rewrite H2, H1; done.
Qed.

(** ** What the third-party calls touch *)

Lemma third_party_frame c w :
  ∃ schedule,
    (third_party c w).2 =
      mkWorld (session_state w) (environ w) (page w) (stdout w) (tempdirs w)
              (mkRemote (collections (remote w)) schedule) (calls w ++ [c]).
Proof.
  unfold third_party. simpl.
  destruct (faults (remote w)) as [|[e|] rest] eqn:Hf; simpl.
  - exists []. unfold with_calls. destruct w as [? ? ? ? ? [? ?] ?]; simpl in *.
    by subst.
  - by exists rest.
  - by exists rest.
Qed.

Section Frames.
Context `{Runtime}.

Lemma load_frame kb w :
  ∃ rem,
    (load kb w).2 =
      mkWorld (session_state w) (environ w) (page w) (stdout w) (tempdirs w)
              rem (calls w ++ [CLoad kb]).
Proof.
  unfold load. simpl. destruct (kb_load _ _ _ _) as [r rem]. by exists rem.
Qed.

Lemma run_frame a prompt w :
  (run a prompt w).2 =
    mkWorld (session_state w) (environ w) (page w) (stdout w) (tempdirs w)
            (agent_run a prompt (environ w) (remote w)).2 (calls w ++ [CRun a prompt]).
Proof.
  unfold run. simpl. by destruct (agent_run _ _ _ _) as [r rem].
Qed.

End Frames.

(** ** Walking a program *)

Ltac head_of t :=
  lazymatch t with
  | ?f _ => head_of f
  | _ => t
  end.

(** [walk special leaf] follows the structure of the program under
    [keeps]; [special] is tried first on every sub-program, [leaf] closes
    the goals about single world updates. *)
Ltac walk special leaf :=
  repeat (cbv zeta;
    first
    [ special
    | lazymatch goal with
      | |- keeps _ (bind _ _) => refine (keeps_bind _ _ _ _ _); [| intros ?]
      | |- keeps _ (try_except _ _) =>
          refine (keeps_try_except _ _ _ _ _); [| intros ?]
      | |- keeps _ (try_except_class _ _ _) =>
          refine (keeps_try_except_class _ _ _ _ _ _); [| intros ?]
      | |- keeps _ (ret _) => refine (keeps_ret _ _)
      | |- keeps _ (raise _) => refine (keeps_raise _ _)
      | |- keeps _ (read _) => refine (keeps_read _ _)
      | |- keeps _ (attr _ _) => refine (keeps_attr _ _ _)
      | |- keeps _ (for_each _ _) => refine (keeps_for_each _ _ _ _); intros ?
      | |- keeps _ (modify _) => refine (keeps_modify _ _ _); intros ?; leaf
      | |- keeps _ (third_party ?c) =>
          let w := fresh "w" in
          intros w; destruct (third_party_frame c w) as [? ->]; leaf
      | |- keeps _ (load ?kb) =>
          let w := fresh "w" in
          intros w; destruct (load_frame kb w) as [? ->]; leaf
      | |- keeps _ (run ?a ?p) =>
          let w := fresh "w" in
          intros w; rewrite (run_frame a p w); leaf
      | |- keeps _ (with_TemporaryDirectory _ _) =>
          refine (keeps_with_TemporaryDirectory _ _ _ _ _);
          [intros ? ?; leaf | intros ?]
      | |- keeps _ (if ?b then _ else _) => destruct b
      | |- keeps _ (match ?x with _ => _ end) => destruct x
      | |- keeps _ ?m => let h := head_of m in unfold h
      end ]).

Ltac same_leaf := unfold same_on; simpl; reflexivity.

Ltac tmp_leaf :=
  unfold tempdirs_same_off; simpl; intros ? ?; try reflexivity;
  by rewrite lookup_alter_ne.

(** ** Strings: the first [n] characters *)




Section Footprints.
Context `{Runtime}.

(** *** The session state *)

Lemma init_qdrant_session : keeps (same_on session_state) init_qdrant.
Proof. walk fail same_leaf. Qed.

Lemma process_document_session f vdb :
  keeps (same_on session_state) (process_document f vdb).
Proof. walk fail same_leaf. Qed.


(** *** Temporary directories *)

Lemma with_TemporaryDirectory_restores {A} (body : string → M A) :
  (∀ d, keeps (tempdirs_same_off d) (body d)) →
  keeps (same_on tempdirs) (with_TemporaryDirectory mkdtemp body).
Proof.
  intros Hb w. unfold same_on, with_TemporaryDirectory.
  set (d := mkdtemp _). set (w0 := with_tempdirs _ w).
  specialize (Hb d w0). destruct (body d w0) as [r w1]; simpl in *.
  apply map_eq. intros k. destruct (decide (k = d)) as [->|Hk].
  - rewrite lookup_delete_eq. symmetry. apply not_elem_of_dom.
    apply mkdtemp_fresh.
  - rewrite lookup_delete_ne by done. rewrite (Hb k Hk).
    subst w0. simpl. by rewrite lookup_insert_ne.
Qed.

Lemma staged_tempdirs f vdb d : keeps (tempdirs_same_off d) (staged f vdb d).
Proof. walk fail tmp_leaf. Qed.

Lemma preflight_tempdirs vdb : keeps (same_on tempdirs) (preflight vdb).
Proof. walk fail same_leaf. Qed.

Lemma process_document_tempdirs f vdb :
  keeps (same_on tempdirs) (process_document f vdb).
Proof.
  unfold process_document. refine (keeps_bind _ _ _ _ _).
  - apply preflight_tempdirs.
  - intros _. apply with_TemporaryDirectory_restores. intros d.
    apply staged_tempdirs.
Qed.

End Footprints.

(** ** The response shown in a tab *)

Lemma with_page_nil w : with_page (λ p, p ++ []) w = w.
Proof. destruct w. unfold with_page. simpl. by rewrite app_nil_r. Qed.

Lemma with_page_app l1 l2 w :
  with_page (λ p, p ++ l2) (with_page (λ p, p ++ l1) w) =
  with_page (λ p, p ++ (l1 ++ l2)) w.
Proof. unfold with_page. simpl. by rewrite app_assoc. Qed.

Lemma display_loop i msgs w :
  for_each msgs (λ message,
      when String.eqb (msg_role message) "assistant"
           && truthy_str (msg_content message)
      then render (InTab i (Markdown (default "" (msg_content message))))) w =
  (inr tt, with_page (λ p, p ++ map (λ s, InTab i (Markdown s)) (assistant_texts msgs)) w).
Proof.
  revert w. induction msgs as [|m msgs IH]; intros w; simpl.
  - unfold ret. by rewrite with_page_nil.
  - unfold bind at 1. destruct (String.eqb _ _ && truthy_str _) eqn:Hm.
    + unfold render, modify at 1. rewrite IH.
      destruct (msg_content m) as [c|]; simpl.
      * by rewrite with_page_app.
      * by rewrite andb_false_r in Hm.
    + unfold ret at 1. by rewrite IH.
Qed.

Lemma display_run (i : nat) (response : RunResponse) (w : World) :
  display i response w =
    if truthy_str (content response) then
      (inr tt,
       with_page (λ p, p ++ [InTab i (Markdown (default "" (content response)))]) w)
    else
      match messages response with
      | Some msgs =>
          (inr tt,
           with_page (λ p, p ++ map (λ s, InTab i (Markdown s)) (assistant_texts msgs)) w)
      | None => (inl (TypeError "'NoneType' object is not iterable"), w)
      end.
Proof.
  unfold display. destruct (truthy_str (content response)); [done|].
  destruct (messages response) as [msgs|]; [|done].
  apply display_loop.
Qed.

(** C7 (as amended).  [display] shows the [content] of a response when it
    is truthy; otherwise it shows, in the order of [messages], the content
    of every assistant message that has one (all of them, the last one
    last), and fails when [messages] is [None]. *)
Theorem display_shows (i : nat) (response : RunResponse) (w : World) :
  display i response w =
    if truthy_str (content response) then
      (inr tt,
       with_page (λ p, p ++ [InTab i (Markdown (default "" (content response)))]) w)
    else
      match messages response with
      | Some msgs =>
          (inr tt,
           with_page (λ p, p ++ map (λ s, InTab i (Markdown s)) (assistant_texts msgs)) w)
      | None => (inl (TypeError "'NoneType' object is not iterable"), w)
      end.
Proof. apply display_run. Qed.

(** C7 (counterexample).  With no [content] and two assistant messages,
    both are shown, not the last one alone. *)
Lemma display_two_drafts :
  page (display 0 Lab.two_drafts Lab.fresh_world).2 =
    [InTab 0 (Markdown "draft"); InTab 0 (Markdown "final")]
  ∧ page (display 0 Lab.two_drafts Lab.fresh_world).2 ≠ [InTab 0 (Markdown "final")].
Proof. split; [reflexivity | discriminate]. Qed.

(** ** The connection-details box *)






(** ** The Clear Credentials button *)

(** C10.  Clearing the credentials stores [None] under [openai_api_key],
    [qdrant_api_key], [qdrant_url] and [vector_db], leaves [legal_team]
    and [knowledge_base] (and everything outside the session state) as
    they are, and reruns the script. *)
Theorem clear_credentials_frame (w : World) :
  clear_credentials w =
    (inl RerunException,
     with_session (λ s, mkSession (Some None) (Some None) (Some None) (Some None)
                                  (legal_team s) (knowledge_base s)) w)
  ∧ legal_team (session_state (clear_credentials w).2) = legal_team (session_state w)
  ∧ knowledge_base (session_state (clear_credentials w).2)
    = knowledge_base (session_state w).
Proof. split; [reflexivity | split; reflexivity]. Qed.

Section Ingestion.
Context `{Runtime}.


End Ingestion.

(** ** The vector store *)

Ltac store_leaf :=
  unfold store_grows; simpl;
  first [ reflexivity
        | match goal with
          | Hro : run_reads_only |- _ => rewrite Hro; reflexivity
          end ].

Lemma create_collection_grows name size distance :
  keeps store_grows (create_collection name size distance).
Proof.
  intros w. unfold create_collection, bind, read.
  destruct (third_party_frame (CCreateCollection name size distance) w) as [fl Hw].
  destruct (third_party _ w) as [[e|[]] w1]; simpl in *; subst w1.
  - unfold store_grows. simpl. reflexivity.
  - simpl. destruct (collections (remote w) !! name) eqn:Hc; simpl.
    + unfold store_grows. simpl. reflexivity.
    + unfold store_grows. simpl. by apply insert_subseteq.
Qed.

Section Store.
Context `{Runtime}.


Lemma testqdrant_grows url key : keeps store_grows (testqdrant url key).
Proof. walk ltac:(apply create_collection_grows) store_leaf. Qed.


End Store.

(** ** Where [process_document] can change the vector store *)

Section IngestionStore.
Context `{Runtime}.




End IngestionStore.


(** ** Runs in which the third-party calls go through *)

Lemma calm_tail n schedule :
  calm (S n) schedule = true → calm n (tail schedule) = true.
Proof.
  destruct schedule as [|[e|] rest]; simpl; try done.
  intros _. by destruct n.
Qed.

Lemma bind_run {A B} (m : M A) (k : A → M B) w a w1 r :
  m w = (inr a, w1) → k a w1 = r → bind m k w = r.
Proof. intros Hm Hk. unfold bind. by rewrite Hm. Qed.

Lemma bind_raises {A B} (m : M A) (k : A → M B) w e w1 :
  m w = (inl e, w1) → bind m k w = (inl e, w1).
Proof. intros Hm. unfold bind. by rewrite Hm. Qed.

Lemma bind_returns {A B} (m : M A) (k : A → M B) w b w2 :
  bind m k w = (inr b, w2) → ∃ a w1, m w = (inr a, w1) ∧ k a w1 = (inr b, w2).
Proof.
  unfold bind. destruct (m w) as [[e|a] w1]; [done|]. intros Hk. eauto.
Qed.

Lemma try_run {A} (body : M A) (handler : PyExc → M A) w a w1 :
  body w = (inr a, w1) → try_except body handler w = (inr a, w1).
Proof. intros Hb. unfold try_except. by rewrite Hb. Qed.

Lemma try_caught {A} (body : M A) (handler : PyExc → M A) w e w1 r :
  body w = (inl e, w1) → handler e w1 = r → try_except body handler w = r.
Proof. intros Hb Hh. unfold try_except. by rewrite Hb. Qed.

Lemma attr_run {T} name (field : SessionState → option (option T)) w v :
  field (session_state w) = Some v → attr name field w = (inr v, w).
Proof. intros Hf. unfold attr. by rewrite Hf. Qed.

Lemma third_party_calm n c w :
  calm (S n) (faults (remote w)) = true → third_party c w = (inr tt, advance c w).
Proof.
  destruct w as [ss env pg out tmp [cs fl] cl]. unfold third_party, advance. simpl.
  by destruct fl as [|[e|] fl].
Qed.

Lemma get_collections_calm n w :
  calm (S n) (faults (remote w)) = true →
  get_collections w =
    (inr (elements (dom (collections (remote w)))), advance CGetCollections w).
Proof.
  intros Hc. unfold get_collections.
  eapply bind_run; [by eapply third_party_calm | done].
Qed.

Lemma create_collection_calm n name size distance w :
  calm (S n) (faults (remote w)) = true →
  collections (remote w) !! name = None →
  create_collection name size distance w =
    (inr tt,
     with_remote (λ r, mkRemote (<[name := mkCollection size distance []]> (collections r))
                                (faults r))
                 (advance (CCreateCollection name size distance) w)).
Proof.
  intros Hc Hn. unfold create_collection.
  eapply bind_run; [by eapply third_party_calm |].
  unfold bind, read. cbn [advance remote collections]. by rewrite Hn.
Qed.

Ltac world_proj :=
  cbn [fst snd session_state environ page stdout tempdirs remote calls collections
       faults advance with_session with_environ with_page with_stdout with_tempdirs
       with_remote with_calls].

Ltac world_proj_in H :=
  cbn [fst snd session_state environ page stdout tempdirs remote calls collections
       faults advance with_session with_environ with_page with_stdout with_tempdirs
       with_remote with_calls] in H.

Ltac solve_calm :=
  world_proj; repeat apply calm_tail;
  match goal with
  | Hcalm : calm _ ?fl = true |- calm _ ?fl = true => exact Hcalm
  end.

(** [run_ok] evaluates a program in which every third-party call goes
    through; the goal is [prog w = r]. *)
Ltac run_ok :=
  lazymatch goal with
  | |- bind _ _ _ = _ => eapply bind_run; [run_ok | cbv beta; run_ok]
  | |- try_except _ _ _ = _ => eapply try_run; run_ok
  | |- attr _ _ _ = _ => apply attr_run; world_proj; eassumption
  | |- third_party _ _ = _ => eapply third_party_calm; solve_calm
  | |- get_collections _ = _ => eapply get_collections_calm; solve_calm
  | |- ret _ _ = _ => reflexivity
  | |- read _ _ = _ => reflexivity
  | |- modify _ _ = _ => reflexivity
  | |- render _ _ = _ => reflexivity
  | |- st_write _ _ = _ => reflexivity
  | |- st_success _ _ = _ => reflexivity
  | |- ?prog ?w = _ => let h := head_of prog in unfold h; run_ok
  end.

Section Connecting.
Context `{Runtime}.
Local Arguments truthy_str : simpl never.

Lemma init_qdrant_existing w k u c :
  qdrant_api_key (session_state w) = Some k → truthy_str k = true →
  qdrant_url (session_state w) = Some u → truthy_str u = true →
  calm 4 (faults (remote w)) = true →
  collections (remote w) !! "legal_knowledge" = Some c →
  ∃ w',
    init_qdrant w = (inr (mkQdrant "legal_knowledge" u k true 20 "cosine"), w')
    ∧ collections (remote w') = collections (remote w)
    ∧ calls w' =
        calls w ++ [CQdrantClient u k (Some 20); CGetCollections;
                    CQdrant (mkQdrant "legal_knowledge" u k true 20 "cosine");
                    CGetCollections]
    ∧ session_state w' = session_state w.
Proof.
  intros Hk Hkt Hu Hut Hcalm Hc.
  assert (bool_decide ("legal_knowledge" ∈ elements (dom (collections (remote w)))) = true)
    as Hmem.
  { apply bool_decide_eq_true_2, elem_of_elements, elem_of_dom. eauto. }
  eexists. split.
  - unfold init_qdrant.
    eapply bind_run; [run_ok|]. rewrite Hkt. cbn [negb].
    eapply bind_run; [run_ok|]. rewrite Hut. cbn [negb].
    eapply try_run.
    eapply bind_run; [run_ok|]. cbv beta.
    eapply bind_run; [run_ok|]. cbv beta.
    eapply bind_run; [|reflexivity].
    unfold ensure_legal_knowledge.
    eapply bind_run; [run_ok|]. cbv beta.
    eapply bind_run; [run_ok|]. cbv beta.
    eapply bind_run; [run_ok|]. cbv beta.
    world_proj. rewrite Hmem. reflexivity.
  - world_proj. rewrite <- !app_assoc. done.
Qed.

Lemma init_qdrant_absent w k u :
  qdrant_api_key (session_state w) = Some k → truthy_str k = true →
  qdrant_url (session_state w) = Some u → truthy_str u = true →
  calm 5 (faults (remote w)) = true →
  collections (remote w) !! "legal_knowledge" = None →
  ∃ w',
    init_qdrant w = (inr (mkQdrant "legal_knowledge" u k true 20 "cosine"), w')
    ∧ collections (remote w') =
        <["legal_knowledge" := mkCollection 1536 "Cosine" []]> (collections (remote w))
    ∧ calls w' =
        calls w ++ [CQdrantClient u k (Some 20); CGetCollections;
                    CQdrant (mkQdrant "legal_knowledge" u k true 20 "cosine");
                    CGetCollections;
                    CCreateCollection "legal_knowledge" 1536 "Cosine"]
    ∧ session_state w' = session_state w.
Proof.
  intros Hk Hkt Hu Hut Hcalm Hc.
  assert (bool_decide ("legal_knowledge" ∈ elements (dom (collections (remote w)))) = false)
    as Hmem.
  { apply bool_decide_eq_false_2. rewrite elem_of_elements, elem_of_dom, Hc.
    by intros [? ?]. }
  eexists. split.
  - unfold init_qdrant.
    eapply bind_run; [run_ok|]. rewrite Hkt. cbn [negb].
    eapply bind_run; [run_ok|]. rewrite Hut. cbn [negb].
    eapply try_run.
    eapply bind_run; [run_ok|]. cbv beta.
    eapply bind_run; [run_ok|]. cbv beta.
    eapply bind_run; [|reflexivity].
    unfold ensure_legal_knowledge.
    eapply bind_run; [run_ok|]. cbv beta.
    eapply bind_run; [run_ok|]. cbv beta.
    eapply bind_run; [run_ok|]. cbv beta.
    world_proj. rewrite Hmem. cbn [negb].
    eapply bind_run; [run_ok|]. cbv beta.
    eapply bind_run; [|reflexivity].
    eapply create_collection_calm; [solve_calm | world_proj; exact Hc].
  - world_proj. rewrite <- !app_assoc. done.
Qed.

Lemma attr_returns {T} name (field : SessionState → option (option T)) w v w' :
  attr name field w = (inr v, w') → field (session_state w) = Some v ∧ w' = w.
Proof.
  unfold attr. destruct (field (session_state w)); [|done].
  intros [= -> ->]. done.
Qed.

Lemma try_returns {A} (body : M A) (handler : PyExc → M A) w a w1 :
  try_except body handler w = (inr a, w1) →
  body w = (inr a, w1) ∨ ∃ e w', body w = (inl e, w') ∧ handler e w' = (inr a, w1).
Proof.
  unfold try_except. destruct (body w) as [[e|a'] w']; intros Hr.
  - right. eauto.
  - left. done.
Qed.

Lemma connection_failed_raises e w : ∃ e' w', connection_failed e w = (inl e', w').
Proof.
  unfold connection_failed, bind, st_error, render, modify, raise, ret. simpl.
  destruct (bool_decide (is_Some (exc_response e))); simpl; eauto.
Qed.

Lemma ensure_legal_knowledge_returns w w1 :
  ensure_legal_knowledge w = (inr tt, w1) →
  is_Some (collections (remote w1) !! "legal_knowledge").
Proof.
  unfold ensure_legal_knowledge. intros Hrun.
  apply bind_returns in Hrun as ([] & w2 & _ & Hrun).
  apply bind_returns in Hrun as (names & w3 & Hget & Hrun).
  unfold get_collections in Hget.
  apply bind_returns in Hget as ([] & w4 & Htp & Hread).
  unfold read in Hread. injection Hread as <- <-.
  apply bind_returns in Hrun as ([] & w5 & Hwrite & Hrun).
  unfold st_write, render, modify in Hwrite. injection Hwrite as <-.
  destruct (bool_decide _) eqn:Hmem; cbn [negb] in Hrun.
  - unfold ret in Hrun. injection Hrun as <-. world_proj.
    apply bool_decide_eq_true_1 in Hmem.
    by apply elem_of_elements, elem_of_dom in Hmem.
  - apply bind_returns in Hrun as ([] & w6 & Hwrite & Hrun).
    unfold st_write, render, modify in Hwrite. injection Hwrite as <-.
    apply bind_returns in Hrun as ([] & w7 & Hcreate & Hrun).
    unfold st_write, render, modify in Hrun. injection Hrun as <-.
    unfold create_collection in Hcreate.
    apply bind_returns in Hcreate as ([] & w8 & _ & Hcreate).
    apply bind_returns in Hcreate as (cs & w9 & Hread & Hcreate).
    unfold read in Hread. injection Hread as <- <-.
    destruct (collections (remote w8) !! "legal_knowledge"); [done|].
    unfold modify in Hcreate. injection Hcreate as <-.
    world_proj. rewrite lookup_insert_eq. by eexists.
Qed.

Lemma init_qdrant_returns w vdb w1 :
  init_qdrant w = (inr vdb, w1) →
  ∃ k u,
    qdrant_api_key (session_state w) = Some k ∧ truthy_str k = true
    ∧ qdrant_url (session_state w) = Some u ∧ truthy_str u = true
    ∧ vdb = mkQdrant "legal_knowledge" u k true 20 "cosine"
    ∧ is_Some (collections (remote w1) !! "legal_knowledge")
    ∧ session_state w1 = session_state w.
Proof.
  intros Hrun. pose proof (init_qdrant_session w) as Hss.
  rewrite Hrun in Hss. unfold same_on in Hss. simpl in Hss.
  unfold init_qdrant in Hrun.
  apply bind_returns in Hrun as (k & w2 & Hk & Hrun).
  apply attr_returns in Hk as [Hk ->].
  destruct (truthy_str k) eqn:Hkt; cbn [negb] in Hrun; [|done].
  apply bind_returns in Hrun as (u & w2 & Hu & Hrun).
  apply attr_returns in Hu as [Hu ->].
  destruct (truthy_str u) eqn:Hut; cbn [negb] in Hrun; [|done].
  exists k, u. split_and!; try done.
  - apply try_returns in Hrun as [Hrun | (e & w' & _ & Hh)].
    2: { destruct (connection_failed_raises e w') as (e' & w'' & Hf). congruence. }
    apply bind_returns in Hrun as ([] & w2 & Hdirect & Hrun).
    apply bind_returns in Hrun as (vdb' & w3 & Hphi & Hrun).
    apply bind_returns in Hrun as ([] & w4 & _ & Hret).
    unfold ret in Hret. injection Hret as -> ->.
    assert (session_state w2 = session_state w) as Hs2.
    { assert (keeps (same_on session_state) direct_connection) as Hd
        by walk fail same_leaf.
      specialize (Hd w). by rewrite Hdirect in Hd. }
    unfold phi_wrapper in Hphi.
    apply bind_returns in Hphi as ([] & w5 & Hwrite & Hphi).
    unfold st_write, render, modify in Hwrite. injection Hwrite as <-.
    apply bind_returns in Hphi as (u' & w6 & Hu' & Hphi).
    apply attr_returns in Hu' as [Hu' ->].
    apply bind_returns in Hphi as (k' & w6 & Hk' & Hphi).
    apply attr_returns in Hk' as [Hk' ->].
    cbv zeta in Hphi.
    apply bind_returns in Hphi as ([] & w6 & _ & Hret).
    unfold ret in Hret. injection Hret as <- _.
    world_proj_in Hu'. world_proj_in Hk'. rewrite Hs2 in Hu', Hk'. congruence.
  - apply try_returns in Hrun as [Hrun | (e & w' & _ & Hh)].
    2: { destruct (connection_failed_raises e w') as (e' & w'' & Hf). congruence. }
    apply bind_returns in Hrun as ([] & w2 & Hdirect & Hrun).
    apply bind_returns in Hrun as (vdb' & w3 & Hphi & Hrun).
    apply bind_returns in Hrun as ([] & w4 & Hens & Hret).
    unfold ret in Hret. injection Hret as -> ->.
    by apply ensure_legal_knowledge_returns in Hens.
Qed.

End Connecting.

(** ** The claims about the vector store *)

Lemma calm_S n schedule : calm (S n) schedule = true → calm n schedule = true.
Proof.
  revert schedule. induction n as [|n IH]; intros schedule; [done|].
  destruct schedule as [|[e|] rest]; simpl; try done. apply IH.
Qed.


Section StoreClaims.
Context `{Runtime}.



(** C3 (as amended).  With both Qdrant credentials set and the service
    answering, [init_qdrant] returns the wrapper object; a
    [legal_knowledge] collection that exists is left as it is, whatever
    its size and distance (nothing is validated), and one that does not
    exist is created empty with size 1536 and distance "Cosine". *)
Theorem init_qdrant_ensures (w : World) (k u : option string) :
  qdrant_api_key (session_state w) = Some k → truthy_str k = true →
  qdrant_url (session_state w) = Some u → truthy_str u = true →
  calm 5 (faults (remote w)) = true →
  (init_qdrant w).1 = inr (mkQdrant "legal_knowledge" u k true 20 "cosine")
  ∧ collections (remote (init_qdrant w).2) =
      match collections (remote w) !! "legal_knowledge" with
      | Some _ => collections (remote w)
      | None =>
          <["legal_knowledge" := mkCollection 1536 "Cosine" []]> (collections (remote w))
      end.
Proof.
  intros Hk Hkt Hu Hut Hcalm.
  destruct (collections (remote w) !! "legal_knowledge") as [c|] eqn:Hc.
  - destruct (init_qdrant_existing w k u c Hk Hkt Hu Hut (calm_S _ _ Hcalm) Hc)
      as (w' & -> & Hcs & _). done.
  - destruct (init_qdrant_absent w k u Hk Hkt Hu Hut Hcalm Hc)
      as (w' & -> & Hcs & _). done.
Qed.

(** C4.  After a call of [init_qdrant] that returned, a second call (the
    service answering) returns the same wrapper, issues no
    [create_collection], and leaves the collections and the session state
    as the first call left them. *)
Theorem init_qdrant_twice (w w1 : World) (vdb : Qdrant) :
  init_qdrant w = (inr vdb, w1) →
  calm 4 (faults (remote w1)) = true →
  ∃ w2,
    init_qdrant w1 = (inr vdb, w2)
    ∧ collections (remote w2) = collections (remote w1)
    ∧ calls w2 =
        calls w1 ++ [CQdrantClient (q_url vdb) (q_api_key vdb) (Some 20); CGetCollections;
                     CQdrant vdb; CGetCollections]
    ∧ session_state w2 = session_state w1.
Proof.
  intros Hrun Hcalm.
  apply init_qdrant_returns in Hrun
    as (k & u & Hk & Hkt & Hu & Hut & -> & [c Hc] & Hss).
  rewrite <- Hss in Hk, Hu.
  destruct (init_qdrant_existing w1 k u c Hk Hkt Hu Hut Hcalm Hc)
    as (w2 & Hrun2 & Hcs & Hcalls & Hss2).
  exists w2. done.
Qed.

End StoreClaims.




(** C3 (a run of it). *)
Lemma init_qdrant_ensures_witness :
  (@init_qdrant Lab.runtime Lab.keyed_world).1 = inr Lab.the_vdb
  ∧ collections (remote (@init_qdrant Lab.runtime Lab.keyed_world).2) =
      {["legal_knowledge" := mkCollection 1536 "Cosine" []]}.
Proof.
  apply (@init_qdrant_ensures Lab.runtime Lab.keyed_world
           (Some "qdrant-secret-key-0123456789") (Some "https://qdrant.example:6333"));
    reflexivity.
Defined.

(** C3 (counterexample).  On a service whose [legal_knowledge] collection
    has 768 dimensions and Euclidean distance, [init_qdrant] returns
    normally and leaves the collection as it is. *)
Lemma init_qdrant_accepts_mismatch :
  collections (remote Lab.mismatched_world) !! "legal_knowledge"
    = Some (mkCollection 768 "Euclid" [mkPoint "old.pdf" 0 "an older document"])
  ∧ (@init_qdrant Lab.runtime Lab.mismatched_world).1 = inr Lab.the_vdb
  ∧ collections (remote (@init_qdrant Lab.runtime Lab.mismatched_world).2)
    = collections (remote Lab.mismatched_world).
Proof. split; [|split]; vm_compute; reflexivity. Qed.

(** C4 (a run of it): two calls on a service that starts empty. *)
Lemma init_qdrant_twice_witness :
  @init_qdrant Lab.runtime Lab.keyed_world
    = (inr Lab.the_vdb, (@init_qdrant Lab.runtime Lab.keyed_world).2)
  ∧ ∃ w2,
      @init_qdrant Lab.runtime (@init_qdrant Lab.runtime Lab.keyed_world).2
        = (inr Lab.the_vdb, w2)
      ∧ collections (remote w2)
        = collections (remote (@init_qdrant Lab.runtime Lab.keyed_world).2).
Proof.
  split; [vm_compute; reflexivity |].
  destruct (@init_qdrant_twice Lab.runtime Lab.keyed_world
              (@init_qdrant Lab.runtime Lab.keyed_world).2 Lab.the_vdb)
    as (w2 & Hrun & Hcs & _); [vm_compute; reflexivity | vm_compute; reflexivity |].
  exists w2. split; [exact Hrun | exact Hcs].
Defined.

(** ** The team is built after the ingestion *)

Ltac agents_leaf :=
  unfold same_on, agents_built; simpl; try reflexivity;
  rewrite filter_app; simpl; by rewrite app_nil_r.


Section Team.
Context `{Runtime}.

Lemma process_document_agents f vdb :
  keeps (same_on agents_built) (process_document f vdb).
Proof. walk fail agents_leaf. Qed.

(** C5.  When [process_document] raises, the [try] around it goes to its
    [except] clause, which only shows the error: no agent is constructed,
    and [legal_team] and [knowledge_base] keep the values they had. *)
Theorem failed_upload_builds_no_team (f : UploadedFile) (vdb : option Qdrant)
    (w w1 : World) (e : PyExc) :
  vector_db (session_state w) = Some vdb →
  process_document f vdb w = (inl e, w1) →
  upload_block f w =
    (inr tt, with_page (λ p, p ++ [Error ("Error processing document: " +:+ exc_msg e)]) w1)
  ∧ agents_built (upload_block f w).2 = agents_built w
  ∧ legal_team (session_state (upload_block f w).2) = legal_team (session_state w)
  ∧ knowledge_base (session_state (upload_block f w).2)
    = knowledge_base (session_state w).
Proof.
  intros Hvdb Hrun.
  assert (upload_block f w =
    (inr tt, with_page (λ p, p ++ [Error ("Error processing document: " +:+ exc_msg e)]) w1))
    as Hup.
  { unfold upload_block. eapply try_caught; [|reflexivity].
    eapply bind_run; [by apply attr_run |].
    by apply bind_raises. }
  split; [exact Hup |]. rewrite Hup. world_proj.
  pose proof (process_document_agents f vdb w) as Ha.
  pose proof (process_document_session f vdb w) as Hs.
  rewrite Hrun in Ha, Hs. unfold same_on in Ha, Hs. simpl in Ha, Hs.
  split_and!.
  - unfold agents_built in *. world_proj. exact Ha.
  - by rewrite Hs.
  - by rewrite Hs.
Qed.

End Team.

(** C5 (a run of it): a corrupted upload on a connected session. *)
Lemma failed_upload_witness :
  vector_db (session_state Lab.connected_world) = Some (Some Lab.the_vdb)
  ∧ legal_team (session_state (@upload_block Lab.runtime Lab.corrupted_pdf
                                  Lab.connected_world).2) = Some None
  ∧ agents_built (@upload_block Lab.runtime Lab.corrupted_pdf Lab.connected_world).2 = [].
Proof.
  split; [reflexivity |].
  destruct (@failed_upload_builds_no_team Lab.runtime Lab.corrupted_pdf (Some Lab.the_vdb)
              Lab.connected_world
              (@process_document Lab.runtime Lab.corrupted_pdf (Some Lab.the_vdb)
                 Lab.connected_world).2
              (Exception "Error processing document: EOF marker not found"))
    as (_ & Ha & Ht & _); [reflexivity | vm_compute; reflexivity |].
  split; [exact Ht | exact Ha].
Defined.

(** ** The two follow-ups *)

Section Followups.
Context `{Runtime}.








End Followups.


(** ** Runs on the concrete platform *)

(** A readable upload: the load sees the staged copy, the collection is
    recreated with its chunk, the four agents are built, the lead is
    stored with its team of three, and the temporary directory is gone. *)
Example upload_builds_the_team :
  let w := (@upload_block Lab.runtime Lab.contract_pdf Lab.connected_world).2 in
  collections (remote w) !! "legal_knowledge"
    = Some (mkCollection 1536 "Cosine"
              [mkPoint "0/contract.pdf" 0 "%PDF-1.7 lease agreement"])
  ∧ length (agents_built w) = 4
  ∧ (agent_name <$> (default None (legal_team (session_state w)))) = Some "Legal Team Lead"
  ∧ ((λ a, agent_name <$> agent_team a) <$> (default None (legal_team (session_state w))))
    = Some ["Legal Researcher"; "Contract Analyst"; "Legal Strategist"]
  ∧ tempdirs w = ∅.
Proof. cbv zeta. split_and!; vm_compute; reflexivity. Qed.

(** A corrupted upload on the same session: with this platform's load,
    which reads before it writes, the collection keeps its old point. *)
Example corrupted_upload_keeps_the_store :
  collections (remote (@upload_block Lab.runtime Lab.corrupted_pdf Lab.connected_world).2)
    = collections (remote Lab.connected_world).
Proof. vm_compute. reflexivity. Qed.

(** [testqdrant.py] run twice on a service that starts empty: the
    second run finds the collection, reports it and changes nothing. *)
Example testqdrant_twice :
  let w1 := (@testqdrant "https://qdrant.example:6333" "key" Lab.fresh_world).2 in
  let w2 := (@testqdrant "https://qdrant.example:6333" "key" w1).2 in
  (@testqdrant "https://qdrant.example:6333" "key" w1).1 = inr tt
  ∧ last (stdout w1) = Some "Collection 'legal_knowledge' created successfully!"
  ∧ last (stdout w2) = Some "Collection 'legal_knowledge' already exists"
  ∧ collections (remote w2) = collections (remote w1).
Proof. cbv zeta. split_and!; vm_compute; reflexivity. Qed.

(** A whole run of the script: keys typed, a contract uploaded, a risk
    assessment asked for, the connection details shown. *)
Example main_run :
  let ui := mkWidgets "sk-test-openai-key" "qdrant-secret-key-0123456789"
                      "https://qdrant.example:6333" (Some Lab.contract_pdf)
                      RiskAssessment "" true true false in
  let out := @main Lab.runtime ui Lab.fresh_world in
  out.1 = inr tt
  ∧ length (List.filter (λ c, match c with CRun _ _ => true | _ => false end)
                        (calls out.2)) = 3
  ∧ last (page out.2)
    = Some (Code (nl +:+ "URL: https://qdrant.example:6333" +:+ nl +:+
                  "API Key: qdrant-s... (truncated)" +:+ nl +:+
                  "Vector DB Status: Initialized" +:+ nl +:+ "        ")).
Proof. cbv zeta. split_and!; vm_compute; reflexivity. Qed.

(** * [patch_phi.py] *)

Module PatchPhiFacts.
Import PatchPhi.

Lemma is_prefix_app p s : is_prefix p (p +:+ s) = true.
Proof.
  induction p as [|a p IH]; [done|].
  change (String a p +:+ s) with (String a (p +:+ s)). simpl.
  by rewrite Ascii.eqb_refl.
Qed.

Lemma contains_app needle s : contains needle (needle +:+ s) = true.
Proof. destruct (needle +:+ s) eqn:Hs; simpl; rewrite <- Hs, is_prefix_app; done. Qed.

Lemma with_import_has_import content :
  contains "import inspect" (with_import content) = true.
Proof.
  unfold with_import. destruct (contains "import inspect" content) eqn:Hc; [done|].
  cbn [negb]. apply contains_app.
Qed.

Lemma exists_true p fs : exists_ p fs = true ↔ is_Some (fs !! p).
Proof. unfold exists_. apply bool_decide_eq_true. Qed.

Lemma exists_false p fs : exists_ p fs = false ↔ fs !! p = None.
Proof.
  unfold exists_. rewrite bool_decide_eq_false, <- eq_None_not_Some. done.
Qed.

(** [find_phi_utils] returns the first of the three places at which a
    file exists, and raises [FileNotFoundError] exactly when there is a
    file at none of them. *)
Theorem find_phi_utils_first (h : Host) (fs : gmap (list string) string)
    (site0 : list string) (others : list (list string)) :
  getsitepackages h = site0 :: others →
  match find_phi_utils h fs with
  | inr path =>
      ∃ before after,
        possible_paths h site0 = before ++ path :: after
        ∧ is_Some (fs !! path)
        ∧ Forall (λ q, fs !! q = None) before
  | inl e =>
      e = FileNotFoundError "Could not find phi/utils.py. Please ensure phi-ai is installed."
      ∧ Forall (λ q, fs !! q = None) (possible_paths h site0)
  end.
Proof.
  intros Hsite. unfold find_phi_utils. rewrite Hsite.
  unfold possible_paths. cbn [List.find].
  destruct (exists_ _ fs) eqn:H1.
  { exists []. eexists. split; [reflexivity|].
    split; [by apply exists_true | constructor]. }
  destruct (exists_ (prefix h ++ _) fs) eqn:H2.
  { exists [site0 ++ ["phi"; "utils.py"]]. eexists. split; [reflexivity|].
    split; [by apply exists_true |].
    repeat constructor. by apply exists_false. }
  destruct (exists_ (home h ++ _) fs) eqn:H3.
  { exists [site0 ++ ["phi"; "utils.py"];
            prefix h ++ ["lib"; "python3.11"; "site-packages"; "phi"; "utils.py"]].
    eexists. split; [reflexivity|]. split; [by apply exists_true |].
    repeat constructor; by apply exists_false. }
  split; [done|]. repeat constructor; by apply exists_false.
Qed.

Lemma find_phi_utils_first_witness :
  getsitepackages sample_host = [["usr"; "lib"; "python3"; "dist-packages"]]
  ∧ match find_phi_utils sample_host (files sample_disk) with
    | inr path =>
        ∃ before after,
          possible_paths sample_host ["usr"; "lib"; "python3"; "dist-packages"]
            = before ++ path :: after
          ∧ is_Some (files sample_disk !! path)
          ∧ Forall (λ q, files sample_disk !! q = None) before
    | inl e =>
        e = FileNotFoundError
              "Could not find phi/utils.py. Please ensure phi-ai is installed."
        ∧ Forall (λ q, files sample_disk !! q = None)
                 (possible_paths sample_host ["usr"; "lib"; "python3"; "dist-packages"])
    end.
Proof.
  split; [reflexivity|].
  apply (find_phi_utils_first sample_host (files sample_disk)
           ["usr"; "lib"; "python3"; "dist-packages"] []).
  reflexivity.
Defined.

Lemma find_phi_utils_exists h fs path :
  find_phi_utils h fs = inr path → is_Some (fs !! path).
Proof.
  unfold find_phi_utils. destruct (getsitepackages h) as [|site0 ?]; [done|].
  destruct (List.find _ _) as [p|] eqn:Hf; [|done]. intros [= <-].
  apply List.find_some in Hf as [_ Hf]. by apply exists_true.
Qed.

Lemma find_phi_utils_name h fs path :
  find_phi_utils h fs = inr path → last path = Some "utils.py".
Proof.
  unfold find_phi_utils. destruct (getsitepackages h) as [|site0 ?]; [done|].
  destruct (List.find _ _) as [p|] eqn:Hf; [|done]. intros [= <-].
  apply List.find_some in Hf as [Hin _]. unfold possible_paths in Hin.
  simpl in Hin. destruct Hin as [<-|[<-|[<-|[]]]]; by rewrite last_app.
Qed.

Section PatchFacts.
Variable re_sub : string → string → string → string.

Lemma apply_patch_outcome h d :
  match find_phi_utils h (files d) with
  | inl e => apply_patch re_sub h d = (inl e, d)
  | inr utils =>
      ∃ original,
        files d !! utils = Some original
        ∧ ((∃ e, (apply_patch re_sub h d).1 = inl e
                 ∧ (files (apply_patch re_sub h d).2 = files d
                    ∨ files (apply_patch re_sub h d).2 =
                        <[removelast utils ++ ["utils.py.backup"] := original]> (files d)))
           ∨ ((apply_patch re_sub h d).1 = inr tt
              ∧ files (apply_patch re_sub h d).2 =
                  <[utils := re_sub pattern (strip new_method) (with_import original)]>
                    (<[removelast utils ++ ["utils.py.backup"] := original]> (files d))))
  end.
Proof.
  unfold apply_patch.
  destruct (find_phi_utils h (files d)) as [e|utils] eqn:Hfind; [done|].
  destruct (find_phi_utils_exists _ _ _ Hfind) as [original Horig].
  assert (utils ≠ removelast utils ++ ["utils.py.backup"]) as Hne.
  { intros Heq. apply find_phi_utils_name in Hfind.
    rewrite Heq, last_app in Hfind. simpl in Hfind. discriminate. }
  exists original. split; [done|].
  destruct d as [fs out fl]. unfold copy2, read_text, write_text, io, say. simpl in *.
  destruct fl as [|[e|] fl]; simpl; rewrite ?Horig; simpl;
    try (left; eexists; split; [done | by left]).
  - rewrite lookup_insert_ne, Horig by done. simpl. right. done.
  - destruct fl as [|[e|] fl]; simpl; rewrite ?lookup_insert_ne, ?Horig by done; simpl;
      try (left; eexists; split; [done | by right]).
    + right. done.
    + destruct fl as [|[e|] fl]; simpl;
        try (left; eexists; split; [done | by right]); right; done.
Qed.

(** When [apply_patch] returns, the backup holds the text [utils.py] had,
    [utils.py] holds what [re.sub] made of that text once it has the
    import, and no other file has changed. *)
Theorem apply_patch_backs_up (h : Host) (d d' : Disk) :
  apply_patch re_sub h d = (inr tt, d') →
  ∃ utils original,
    find_phi_utils h (files d) = inr utils
    ∧ files d !! utils = Some original
    ∧ files d' !! (removelast utils ++ ["utils.py.backup"]) = Some original
    ∧ files d' !! utils
      = Some (re_sub pattern (strip new_method) (with_import original))
    ∧ contains "import inspect" (with_import original) = true
    ∧ ∀ p, p ≠ utils → p ≠ removelast utils ++ ["utils.py.backup"] →
           files d' !! p = files d !! p.
Proof.
  intros Hrun. pose proof (apply_patch_outcome h d) as Hout.
  destruct (find_phi_utils h (files d)) as [e|utils] eqn:Hfind; [congruence|].
  destruct Hout as (original & Horig & [(e & He & _) | [_ Hfiles]]);
    rewrite Hrun in *; simpl in *; [done|].
  assert (utils ≠ removelast utils ++ ["utils.py.backup"]) as Hne.
  { intros Heq. apply find_phi_utils_name in Hfind.
    rewrite Heq, last_app in Hfind. simpl in Hfind. discriminate. }
  exists utils, original. rewrite Hfiles. split_and!; try done.
  - rewrite lookup_insert_ne by done. by rewrite lookup_insert_eq.
  - by rewrite lookup_insert_eq.
  - apply with_import_has_import.
  - intros p Hp1 Hp2. by rewrite !lookup_insert_ne.
Qed.


Lemma find_phi_utils_after h fs utils new original :
  find_phi_utils h fs = inr utils →
  find_phi_utils h (<[utils := new]> (<[removelast utils ++ ["utils.py.backup"] := original]> fs))
    = inr utils.
Proof.
  intros Hfind. pose proof (find_phi_utils_exists _ _ _ Hfind) as Hex.
  revert Hfind. unfold find_phi_utils.
  destruct (getsitepackages h) as [|site0 ?]; [done|].
  assert (∀ q, last q = Some "utils.py" →
            exists_ q (<[utils := new]>
                        (<[removelast utils ++ ["utils.py.backup"] := original]> fs))
            = exists_ q fs) as Hsame.
  { intros q Hq. unfold exists_. apply bool_decide_ext.
    destruct (decide (q = utils)) as [->|Hqu].
    - rewrite lookup_insert_eq. split; [done | by eauto].
    - rewrite lookup_insert_ne by done. rewrite lookup_insert_ne; [done|].
      intros <-. rewrite last_app in Hq. simpl in Hq. discriminate. }
  unfold possible_paths. cbn [List.find].
  rewrite !Hsame by (by rewrite last_app). done.
Qed.

(** A second run of the patch overwrites the backup with the text the
    first run wrote: the text [utils.py] had before the first run is in
    no file any more unless [re.sub] gave it back. *)
Theorem apply_patch_twice (h : Host) (d d1 d2 : Disk) :
  apply_patch re_sub h d = (inr tt, d1) →
  apply_patch re_sub h d1 = (inr tt, d2) →
  ∃ utils,
    find_phi_utils h (files d) = inr utils
    ∧ files d2 !! (removelast utils ++ ["utils.py.backup"]) = files d1 !! utils.
Proof.
  intros Hrun1 Hrun2.
  pose proof (apply_patch_outcome h d) as Hout1.
  destruct (find_phi_utils h (files d)) as [e|utils] eqn:Hfind; [congruence|].
  destruct Hout1 as (original & Horig & [(e & He & _) | [_ Hfiles1]]);
    rewrite Hrun1 in *; simpl in *; [done|].
  exists utils. split; [done|].
  assert (find_phi_utils h (files d1) = inr utils) as Hfind1.
  { rewrite Hfiles1. by apply find_phi_utils_after. }
  assert (utils ≠ removelast utils ++ ["utils.py.backup"]) as Hne.
  { intros Heq. apply find_phi_utils_name in Hfind.
    rewrite Heq, last_app in Hfind. simpl in Hfind. discriminate. }
  pose proof (apply_patch_outcome h d1) as Hout2. rewrite Hfind1 in Hout2.
  destruct Hout2 as (patched & Hpatched & [(e & He & _) | [_ Hfiles2]]);
    rewrite Hrun2 in *; simpl in *; [done|].
  rewrite Hfiles2, Hpatched. rewrite lookup_insert_ne by done.
  by rewrite lookup_insert_eq.
Qed.

(** Where phi is installed at none of the three places, the script
    changes no file, prints the one error line and exits with status 1. *)
Theorem script_without_phi (h : Host) (d : Disk) (site0 : list string)
    (others : list (list string)) :
  getsitepackages h = site0 :: others →
  Forall (λ q, files d !! q = None) (possible_paths h site0) →
  script re_sub h d =
    (1, say ("Error applying patch: "
             +:+ "Could not find phi/utils.py. Please ensure phi-ai is installed.") d).
Proof.
  intros Hsite Hnone. unfold script, apply_patch, find_phi_utils. rewrite Hsite.
  destruct (List.find _ _) as [p|] eqn:Hf; [|done].
  apply List.find_some in Hf as [Hin Hex].
  apply exists_true in Hex as [x Hx].
  rewrite Forall_forall in Hnone. rewrite (Hnone p) in Hx; [done|].
  by apply list_elem_of_In.
Qed.

End PatchFacts.

Lemma outcome_by_result {A B} (out : A * B) (a : A) : out.1 = a → out = (a, out.2).
Proof. destruct out. simpl. by intros ->. Qed.

Lemma apply_patch_backs_up_witness :
  apply_patch bracket sample_host sample_disk
    = (inr tt, (apply_patch bracket sample_host sample_disk).2)
  ∧ ∃ utils original,
      find_phi_utils sample_host (files sample_disk) = inr utils
      ∧ files sample_disk !! utils = Some original
      ∧ files (apply_patch bracket sample_host sample_disk).2
          !! (removelast utils ++ ["utils.py.backup"]) = Some original
      ∧ files (apply_patch bracket sample_host sample_disk).2 !! utils
        = Some (bracket pattern (strip new_method) (with_import original))
      ∧ contains "import inspect" (with_import original) = true
      ∧ ∀ p, p ≠ utils → p ≠ removelast utils ++ ["utils.py.backup"] →
             files (apply_patch bracket sample_host sample_disk).2 !! p
             = files sample_disk !! p.
Proof.
  split; [apply outcome_by_result; vm_compute; reflexivity |].
  apply (apply_patch_backs_up bracket sample_host sample_disk).
  apply outcome_by_result. vm_compute. reflexivity.
Defined.


Lemma apply_patch_twice_witness :
  apply_patch bracket sample_host sample_disk
    = (inr tt, (apply_patch bracket sample_host sample_disk).2)
  ∧ ∃ utils,
      find_phi_utils sample_host (files sample_disk) = inr utils
      ∧ files (apply_patch bracket sample_host
                 (apply_patch bracket sample_host sample_disk).2).2
          !! (removelast utils ++ ["utils.py.backup"])
        = files (apply_patch bracket sample_host sample_disk).2 !! utils.
Proof.
  split; [apply outcome_by_result; vm_compute; reflexivity |].
  apply (apply_patch_twice bracket sample_host sample_disk
           (apply_patch bracket sample_host sample_disk).2
           (apply_patch bracket sample_host
              (apply_patch bracket sample_host sample_disk).2).2);
    apply outcome_by_result; vm_compute; reflexivity.
Defined.

Lemma script_without_phi_witness :
  getsitepackages sample_host = [["usr"; "lib"; "python3"; "dist-packages"]]
  ∧ script bracket sample_host bare_disk =
      (1, say ("Error applying patch: "
               +:+ "Could not find phi/utils.py. Please ensure phi-ai is installed.")
              bare_disk).
Proof.
  split; [reflexivity |].
  apply (script_without_phi bracket sample_host bare_disk
           ["usr"; "lib"; "python3"; "dist-packages"] []); [reflexivity |].
  repeat constructor.
Defined.

End PatchPhiFacts.

(** * More of [legal_agent_team.py] *)



Lemma third_party_fault c w e rest :
  faults (remote w) = Some e :: rest →
  third_party c w =
    (inl e, mkWorld (session_state w) (environ w) (page w) (stdout w) (tempdirs w)
                    (mkRemote (collections (remote w)) rest) (calls w ++ [c])).
Proof. intros Hf. unfold third_party. simpl. by rewrite Hf. Qed.

Lemma truthy_str_nonempty key : key ≠ "" → truthy_str (Some key) = true.
Proof.
  intros Hne. unfold truthy_str. destruct (String.eqb_spec key ""); done.
Qed.

(** ** [init_session_state] *)

Lemma init_session_state_present (w : World) :
  present (init_session_state w).2.
Proof.
  destruct w as [[o k u v t b] env pg out tmp rem cl].
  unfold init_session_state, assign, modify, with_session, present. simpl.
  destruct o, k, u, v, t, b; simpl; split_and!; by eauto.
Qed.

(** [init_session_state] gives [None] to the attributes that are missing
    and keeps the value of every attribute that is there; a second call
    changes nothing. *)
Theorem init_session_state_idempotent (w : World) :
  session_state (init_session_state w).2 =
    mkSession (Some (default None (openai_api_key (session_state w))))
              (Some (default None (qdrant_api_key (session_state w))))
              (Some (default None (qdrant_url (session_state w))))
              (Some (default None (vector_db (session_state w))))
              (Some (default None (legal_team (session_state w))))
              (Some (default None (knowledge_base (session_state w))))
  ∧ present (init_session_state w).2
  ∧ init_session_state (init_session_state w).2 = (inr tt, (init_session_state w).2).
Proof.
  destruct w as [[o k u v t b] env pg out tmp rem cl].
  unfold init_session_state, assign, modify, with_session, present. simpl.
  destruct o, k, u, v, t, b; simpl; split_and!; by eauto.
Qed.

Section MoreConnecting.
Context `{Runtime}.

(** ** [init_qdrant] *)


(** Without a Qdrant API key, or with a key but without a URL (each
    [None] or empty), [init_qdrant] raises [ValueError] at once: nothing
    is shown and no call is made. *)
Theorem init_qdrant_needs_credentials (w : World) (k u : option string) :
  qdrant_api_key (session_state w) = Some k →
  qdrant_url (session_state w) = Some u →
  truthy_str k && truthy_str u = false →
  init_qdrant w =
    (inl (ValueError (if truthy_str k then "Qdrant URL not provided"
                      else "Qdrant API key not provided")), w).
Proof.
  intros Hk Hu Hfalse. unfold init_qdrant.
  destruct (truthy_str k) eqn:Hkt.
  - simpl in Hfalse.
    eapply bind_run; [by apply attr_run |]. rewrite Hkt. cbn [negb].
    eapply bind_run; [by apply attr_run |]. rewrite Hfalse. done.
  - eapply bind_run; [by apply attr_run |]. rewrite Hkt. done.
Qed.


End MoreConnecting.

Section MoreIngestion.
Context `{Runtime}.

(** ** [process_document] *)

(** Without an OpenAI API key ([None] or empty) [process_document]
    raises [ValueError] at once: no environment variable is set, nothing
    is shown, staged or sent. *)
Theorem process_document_needs_key (f : UploadedFile) (vdb : option Qdrant)
    (w : World) (k : option string) :
  openai_api_key (session_state w) = Some k →
  truthy_str k = false →
  process_document f vdb w = (inl (ValueError "OpenAI API key not provided"), w).
Proof.
  intros Hk Hkt. unfold process_document. apply bind_raises.
  unfold preflight. eapply bind_run; [by apply attr_run |]. by rewrite Hkt.
Qed.

Lemma preflight_after_key vdb w key :
  openai_api_key (session_state w) = Some (Some key) → key ≠ "" →
  preflight vdb w =
    try_except
      (st_write "Testing Qdrant connection...";;
       let* names := (if truthy_obj vdb then get_collections
                      else raise (NoneAttributeError "client")) in
       st_write ("Available collections: " +:+ repr_names names))
      (λ e, raise (Exception ("Qdrant connection test failed: " +:+ exc_msg e)))
      (with_environ (λ env, <["OPENAI_API_KEY" := key]> env) w).
Proof.
  intros Hk Hne. unfold preflight.
  eapply bind_run; [by apply attr_run |].
  rewrite (truthy_str_nonempty key Hne). cbn [negb].
  eapply bind_run; [by apply attr_run |].
  eapply bind_run; [reflexivity |]. reflexivity.
Qed.

(** When the connection test of lines 97-102 fails, [process_document]
    raises a plain [Exception] with the message of the failure; by then
    the key is in the environment, but no temporary directory has been
    made and nothing has been staged or loaded. *)
Theorem process_document_connection_test (f : UploadedFile) (q : Qdrant) (w : World)
    (key : string) (e0 : PyExc) (rest : list (option PyExc)) :
  openai_api_key (session_state w) = Some (Some key) → key ≠ "" →
  faults (remote w) = Some e0 :: rest →
  process_document f (Some q) w =
    (inl (Exception ("Qdrant connection test failed: " +:+ exc_msg e0)),
     mkWorld (session_state w) (<["OPENAI_API_KEY" := key]> (environ w))
             (page w ++ [Write "Testing Qdrant connection..."]) (stdout w) (tempdirs w)
             (mkRemote (collections (remote w)) rest) (calls w ++ [CGetCollections])).
Proof.
  intros Hk Hne Hf. unfold process_document. apply bind_raises.
  rewrite (preflight_after_key _ _ key Hk Hne).
  eapply try_caught; [| reflexivity].
  eapply bind_run; [reflexivity |].
  apply bind_raises. cbn [truthy_obj]. unfold get_collections. apply bind_raises.
  erewrite third_party_fault by (world_proj; exact Hf). reflexivity.
Qed.


Lemma third_party_returns c w w' :
  third_party c w = (inr tt, w') →
  ∃ schedule,
    w' = mkWorld (session_state w) (environ w) (page w) (stdout w) (tempdirs w)
                 (mkRemote (collections (remote w)) schedule) (calls w ++ [c]).
Proof.
  intros Htp. destruct (third_party_frame c w) as [fl Hfr].
  rewrite Htp in Hfr. by exists fl.
Qed.

Lemma load_returns kb w w' :
  load kb w = (inr tt, w') →
  kb_load kb (default ∅ (tempdirs w !! kb_path kb)) (environ w) (remote w)
    = (inr tt, remote w')
  ∧ tempdirs w' = tempdirs w ∧ calls w' = calls w ++ [CLoad kb].
Proof.
  unfold load. simpl. destruct (kb_load _ _ _ _) as [[e|[]] rem]; [done|].
  by intros [= <-].
Qed.

Lemma ingest_failed_raises e w : ∃ e' w', ingest_failed e w = (inl e', w').
Proof. unfold ingest_failed, bind, st_error, render, modify, raise. simpl. eauto. Qed.

Lemma ingest_returns d vdb w kb w' :
  ingest d vdb w = (inr kb, w') →
  ∃ key rem,
    openai_api_key (session_state w) = Some key
    ∧ kb = mkKB d vdb (mkReader true) (mkEmbedder "text-embedding-3-small" key) true
    ∧ collections rem = collections (remote w)
    ∧ kb_load kb (default ∅ (tempdirs w !! d)) (environ w) rem = (inr tt, remote w')
    ∧ tempdirs w' = tempdirs w
    ∧ calls w' =
        calls w ++ [COpenAIEmbedder (kb_embedder kb); CPDFReader (kb_reader kb);
                    CPDFKnowledgeBase kb; CLoad kb].
Proof.
  unfold ingest. intros Hrun.
  apply bind_returns in Hrun as ([] & w1 & Hw & Hrun).
  unfold st_write, render, modify in Hw. injection Hw as <-.
  apply bind_returns in Hrun as (key & w1 & Hk & Hrun).
  apply attr_returns in Hk as [Hk ->]. cbv zeta in Hrun.
  apply bind_returns in Hrun as ([] & w1 & Htp & Hrun).
  apply third_party_returns in Htp as [fl1 ->].
  apply bind_returns in Hrun as ([] & w1 & Hw & Hrun).
  unfold st_write, render, modify in Hw. injection Hw as <-.
  apply bind_returns in Hrun as ([] & w1 & Htp & Hrun).
  apply third_party_returns in Htp as [fl2 ->].
  apply bind_returns in Hrun as ([] & w1 & Htp & Hrun).
  apply third_party_returns in Htp as [fl3 ->].
  apply bind_returns in Hrun as ([] & w1 & Hw & Hrun).
  unfold st_write, render, modify in Hw. injection Hw as <-.
  apply bind_returns in Hrun as ([] & w1 & Hload & Hrun).
  apply load_returns in Hload as (Hload & Htmp & Hcalls).
  apply bind_returns in Hrun as ([] & w2 & Hw & Hret).
  unfold st_write, render, modify in Hw. injection Hw as <-.
  unfold ret in Hret. injection Hret as <- <-.
  world_proj_in Hload. world_proj_in Htmp. world_proj_in Hcalls. world_proj_in Hk.
  eexists key, _. split_and!; [exact Hk | reflexivity | | exact Hload | exact Htmp |].
  - reflexivity.
  - world_proj. rewrite Hcalls. cbn [kb_embedder kb_reader]. by rewrite <- !app_assoc.
Qed.

Lemma staged_returns f vdb d w kb w' :
  staged f vdb d w = (inr kb, w') →
  tempdirs w !! d = Some ∅ →
  ∃ key rem,
    openai_api_key (session_state w) = Some key
    ∧ kb = mkKB d vdb (mkReader true) (mkEmbedder "text-embedding-3-small" key) true
    ∧ collections rem = collections (remote w)
    ∧ kb_load kb {[path_join d (file_name f) := file_buffer f]} (environ w) rem
      = (inr tt, remote w')
    ∧ calls w' =
        calls w ++ [COpenWrite (path_join d (file_name f));
                    COpenAIEmbedder (kb_embedder kb); CPDFReader (kb_reader kb);
                    CPDFKnowledgeBase kb; CLoad kb].
Proof.
  unfold staged. intros Hrun Hd.
  apply bind_returns in Hrun as ([] & w1 & Hw & Hrun).
  unfold st_write, render, modify in Hw. injection Hw as <-.
  apply bind_returns in Hrun as ([] & w1 & Hwrite & Hrun).
  unfold write_file in Hwrite.
  apply bind_returns in Hwrite as ([] & w2 & Htp & Hmod).
  apply third_party_returns in Htp as [fl1 ->].
  unfold modify in Hmod. injection Hmod as <-.
  apply bind_returns in Hrun as ([] & w1 & Hw & Hrun).
  unfold st_write, render, modify in Hw. injection Hw as <-.
  apply try_returns in Hrun as [Hrun | (e & w2 & _ & Hh)].
  2: { destruct (ingest_failed_raises e w2) as (e' & w3 & Hf). congruence. }
  apply ingest_returns in Hrun
    as (key & rem & Hk & -> & Hcs & Hload & _ & Hcalls).
  world_proj_in Hk. world_proj_in Hcs. world_proj_in Hload. world_proj_in Hcalls.
  rewrite lookup_alter, decide_True, Hd in Hload by done. simpl in Hload.
  rewrite insert_empty in Hload.
  exists key, rem. split_and!; try done.
  rewrite Hcalls. by rewrite <- !app_assoc.
Qed.

Lemma process_document_returns f vdb w kb w' :
  process_document f vdb w = (inr kb, w') →
  ∃ key rem,
    openai_api_key (session_state w) = Some (Some key) ∧ key ≠ ""
    ∧ kb = mkKB (mkdtemp (dom (tempdirs w))) vdb (mkReader true)
                (mkEmbedder "text-embedding-3-small" (Some key)) true
    ∧ collections rem = collections (remote w)
    ∧ kb_load kb {[path_join (kb_path kb) (file_name f) := file_buffer f]}
              (<["OPENAI_API_KEY" := key]> (environ w)) rem
      = (inr tt, remote w')
    ∧ tempdirs w' = tempdirs w.
Proof.
  intros Hrun.
  pose proof (process_document_tempdirs f vdb w) as Htmp.
  rewrite Hrun in Htmp. unfold same_on in Htmp. simpl in Htmp.
  unfold process_document in Hrun.
  apply bind_returns in Hrun as ([] & w1 & Hpre & Hrun).
  assert (∃ key, openai_api_key (session_state w) = Some (Some key) ∧ key ≠ "")
    as (key & Hk & Hne).
  { unfold preflight in Hpre.
    apply bind_returns in Hpre as (k & w2 & Hk & Hpre).
    apply attr_returns in Hk as [Hk ->].
    destruct k as [key|]; [|done].
    exists key. split; [done|]. intros ->. done. }
  rewrite (preflight_after_key _ _ key Hk Hne) in Hpre.
  assert (session_state w1 = session_state w ∧ tempdirs w1 = tempdirs w
          ∧ environ w1 = <["OPENAI_API_KEY" := key]> (environ w)
          ∧ collections (remote w1) = collections (remote w)) as (Hs1 & Ht1 & He1 & Hc1).
  { match type of Hpre with
    | try_except ?body ?handler ?w0 = _ =>
        assert (keeps (same_on session_state) (try_except body handler)) as K1
          by walk fail same_leaf;
        assert (keeps (same_on tempdirs) (try_except body handler)) as K2
          by walk fail same_leaf;
        assert (keeps (same_on environ) (try_except body handler)) as K3
          by walk fail same_leaf;
        assert (keeps (same_on (λ w, collections (remote w))) (try_except body handler))
          as K4 by walk fail same_leaf;
        specialize (K1 w0); specialize (K2 w0); specialize (K3 w0); specialize (K4 w0)
    end.
    rewrite Hpre in K1, K2, K3, K4. done. }
  unfold with_TemporaryDirectory in Hrun.
  destruct (staged f vdb _ _) as [r w2] eqn:Hst. injection Hrun as -> <-.
  apply staged_returns in Hst as (k' & rem & Hk' & -> & Hcs & Hload & _).
  2: { world_proj. by rewrite lookup_insert_eq. }
  world_proj_in Hk'. world_proj_in Hcs. world_proj_in Hload.
  rewrite Hs1, Hk in Hk'. injection Hk' as <-.
  rewrite Ht1, He1 in Hload. rewrite Ht1. rewrite Hc1 in Hcs. rewrite Ht1 in Htmp.
  exists key, rem. split_and!; try done.
Qed.

(** The knowledge base [process_document] returns was built with
    [recreate_vector_db=True] on the vector database it was given, and
    its [path] is the temporary directory, which does not exist any more
    when the caller gets the object. *)
Theorem process_document_returns_stale_path (f : UploadedFile) (vdb : option Qdrant)
    (w w' : World) (kb : PDFKnowledgeBase) :
  process_document f vdb w = (inr kb, w') →
  kb_path kb = mkdtemp (dom (tempdirs w))
  ∧ tempdirs w' !! kb_path kb = None
  ∧ kb_vector_db kb = vdb
  ∧ recreate_vector_db kb = true
  ∧ kb_reader kb = mkReader true
  ∧ kb_embedder kb
    = mkEmbedder "text-embedding-3-small" (default None (openai_api_key (session_state w))).
Proof.
  intros Hrun.
  apply process_document_returns in Hrun
    as (key & rem & Hk & _ & -> & _ & _ & Htmp).
  cbn [kb_path kb_vector_db recreate_vector_db kb_reader kb_embedder].
  split_and!; try done.
  - rewrite Htmp. apply not_elem_of_dom, mkdtemp_fresh.
  - by rewrite Hk.
Qed.


End MoreIngestion.

Section MoreMain.
Context `{Runtime}.

(** ** The sidebar *)

Lemma credential_inputs_run ui w o k u :
  openai_api_key (session_state w) = Some o →
  qdrant_api_key (session_state w) = Some k →
  qdrant_url (session_state w) = Some u →
  credential_inputs ui w =
    (inr tt,
     mkWorld (mkSession (Some (typed (openai_key_input ui) o))
                        (Some (typed (qdrant_key_input ui) k))
                        (Some (typed (qdrant_url_input ui) u))
                        (vector_db (session_state w)) (legal_team (session_state w))
                        (knowledge_base (session_state w)))
             (environ w) (page w ++ [Header "🔑 API Configuration"]) (stdout w)
             (tempdirs w) (remote w) (calls w)).
Proof.
  destruct w as [[o' k' u' v t b] env pg out tmp rem cl]. simpl.
  intros -> -> ->.
  unfold credential_inputs, bind, attr, st_header, render, modify, assign, ret, typed,
    truthy_str, with_page, with_session, set_openai_api_key, set_qdrant_api_key,
    set_qdrant_url. simpl.
  destruct (String.eqb (openai_key_input ui) ""); simpl;
    destruct (String.eqb (qdrant_key_input ui) ""); simpl;
    destruct (String.eqb (qdrant_url_input ui) ""); reflexivity.
Qed.

(** A credential typed in the sidebar replaces the stored one; an empty
    input leaves the stored one as it is, so a credential is never
    cleared by emptying its field.  Nothing else in the session state
    changes. *)
Theorem credential_inputs_store (ui : Widgets) (w : World) (o k u : option string) :
  openai_api_key (session_state w) = Some o →
  qdrant_api_key (session_state w) = Some k →
  qdrant_url (session_state w) = Some u →
  credential_inputs ui w =
    (inr tt,
     mkWorld (mkSession (Some (typed (openai_key_input ui) o))
                        (Some (typed (qdrant_key_input ui) k))
                        (Some (typed (qdrant_url_input ui) u))
                        (vector_db (session_state w)) (legal_team (session_state w))
                        (knowledge_base (session_state w)))
             (environ w) (page w ++ [Header "🔑 API Configuration"]) (stdout w)
             (tempdirs w) (remote w) (calls w)).
Proof. apply credential_inputs_run. Qed.

(** [connect] never raises and never reconnects: with a vector database
    in the session, or with a Qdrant credential missing, it does nothing;
    otherwise it calls [init_qdrant] once, stores what that returns, and
    shows what that raises in place of raising it, leaving [vector_db]
    as it was. *)
Theorem connect_once (w : World) (k u : option string) (v : option Qdrant) :
  qdrant_api_key (session_state w) = Some k →
  qdrant_url (session_state w) = Some u →
  vector_db (session_state w) = Some v →
  connect w =
    if truthy_str k && truthy_str u && negb (truthy_obj v) then
      match init_qdrant w with
      | (inr vdb, w1) =>
          (inr tt,
           with_page (λ p, p ++ [Success "Successfully connected to Qdrant!"])
                     (with_session (set_vector_db (Some vdb)) w1))
      | (inl e, w1) =>
          (inr tt,
           with_page (λ p, p ++ [Error ("Failed to connect to Qdrant: " +:+ exc_msg e)]) w1)
      end
    else (inr tt, w).
Proof.
  intros Hk Hu Hv. unfold connect.
  eapply bind_run; [by apply attr_run |].
  eapply bind_run; [by apply attr_run |].
  destruct (truthy_str k && truthy_str u); [|done]. cbn [andb].
  unfold try_except, bind at 1. rewrite (attr_run _ _ _ _ Hv).
  destruct (truthy_obj v); [done|]. cbn [negb].
  unfold bind. destruct (init_qdrant w) as [[e|vdb] w1]; reflexivity.
Qed.

(** ** The analysis *)

(** When the first call of the team raises, the analysis block shows the
    error and nothing else: no tab is drawn and neither follow-up call is
    made. *)
Theorem analysis_stops_at_first_failure (t : AnalysisType) (user_query : option string)
    (w : World) (key : string) (lead : Agent) (e0 : PyExc) (rem' : Remote) :
  openai_api_key (session_state w) = Some (Some key) →
  legal_team (session_state w) = Some (Some lead) →
  agent_run lead (combined_query t user_query)
            (<["OPENAI_API_KEY" := key]> (environ w)) (remote w) = (inl e0, rem') →
  analysis_block t user_query w =
    (inr tt,
     mkWorld (session_state w) (<["OPENAI_API_KEY" := key]> (environ w))
             (page w ++ [Error ("Error during analysis: " +:+ exc_msg e0)]) (stdout w)
             (tempdirs w) rem' (calls w ++ [CRun lead (combined_query t user_query)])).
Proof.
  intros Hk Hteam Hrun. unfold analysis_block.
  eapply try_caught.
  - apply bind_raises. unfold first_analysis.
    eapply bind_run; [by apply attr_run |].
    eapply bind_run; [reflexivity |].
    apply bind_raises. unfold run_team.
    eapply bind_run; [by apply attr_run |].
    unfold run. world_proj. rewrite Hrun. reflexivity.
  - reflexivity.
Qed.

End MoreMain.

(** ** [testqdrant.py] *)

Lemma for_each_print (names : list string) (w : World) :
  for_each names (λ name, print ("- " +:+ name)) w =
    (inr tt, with_stdout (λ o, o ++ map (λ name, "- " +:+ name) names) w).
Proof.
  revert w. induction names as [|n names IH]; intros w; simpl.
  - unfold ret, with_stdout. destruct w. simpl. by rewrite app_nil_r.
  - unfold bind at 1. unfold print, modify at 1. rewrite IH.
    unfold with_stdout. simpl. by rewrite <- app_assoc.
Qed.

(** [testqdrant.py] never raises, whatever the service does, and never
    removes a collection or changes one that exists. *)
Theorem testqdrant_never_raises (url api_key : string) (w : World) :
  (testqdrant url api_key w).1 = inr tt
  ∧ collections (remote w) ⊆ collections (remote (testqdrant url api_key w).2).
Proof.
  split; [| apply testqdrant_grows].
  unfold testqdrant, try_except.
  match goal with |- context [?body w] => by destruct (body w) as [[e|[]] w1] end.
Qed.

(** On a service that answers and has the collection, [testqdrant.py]
    takes the refusal of [create_collection] for what it is: it reports
    that the collection exists and leaves the collections as they are. *)
Theorem testqdrant_existing (url api_key : string) (w : World) (c : Collection) :
  calm 3 (faults (remote w)) = true →
  collections (remote w) !! "legal_knowledge" = Some c →
  collections (remote (testqdrant url api_key w).2) = collections (remote w)
  ∧ last (stdout (testqdrant url api_key w).2)
    = Some "Collection 'legal_knowledge' already exists".
Proof.
  intros Hcalm Hc.
  assert (∃ w', testqdrant url api_key w = (inr tt, w')
                ∧ collections (remote w') = collections (remote w)
                ∧ last (stdout w') = Some "Collection 'legal_knowledge' already exists")
    as (w' & -> & Hcs & Hout); [|done].
  eexists. split.
  - unfold testqdrant. eapply try_run.
    eapply bind_run; [run_ok |]. cbv beta.
    eapply bind_run; [reflexivity |]. cbv beta.
    eapply bind_run; [run_ok |]. cbv beta.
    eapply bind_run; [reflexivity |]. cbv beta.
    eapply bind_run; [reflexivity |]. cbv beta.
    eapply bind_run; [apply for_each_print |]. cbv beta.
    eapply bind_run; [reflexivity |]. cbv beta.
    unfold try_except_class, bind at 1, create_collection.
    erewrite (bind_run (third_party _)); [| run_ok | reflexivity].
    unfold bind at 1, read. world_proj. rewrite Hc. unfold raise. cbv beta iota.
    reflexivity.
  - split; [reflexivity |]. world_proj. by rewrite last_snoc.
Qed.

(** ** Building the team *)

Section MoreTeam.
Context `{Runtime}.

(** [build_team] stores the knowledge base before it constructs
    anything.  When a constructor raises, [knowledge_base] is the new
    one while [legal_team] is still what it was; when all go through,
    [legal_team] is the lead with the researcher, the analyst and the
    strategist as its team, all four searching the knowledge base just
    stored, and the researcher alone with the web search tool. *)
Theorem build_team_outcome (kb : PDFKnowledgeBase) (w : World) :
  knowledge_base (session_state (build_team kb w).2) = Some (Some kb)
  ∧ match (build_team kb w).1 with
    | inl e =>
        legal_team (session_state (build_team kb w).2) = legal_team (session_state w)
    | inr _ =>
        ∃ lead,
          legal_team (session_state (build_team kb w).2) = Some (Some lead)
          ∧ agent_name lead = "Legal Team Lead"
          ∧ agent_name <$> agent_team lead
            = ["Legal Researcher"; "Contract Analyst"; "Legal Strategist"]
          ∧ agent_tools <$> agent_team lead = [[DuckDuckGo]; []; []]
          ∧ Forall (λ a, agent_knowledge a = Some kb ∧ search_knowledge a = true)
                   (lead :: agent_team lead)
    end.
Proof.
  destruct w as [ss env pg out tmp [cs fl] cl].
  unfold build_team, bind, assign, modify, attr, third_party, st_success, render, ret.
  simpl.
  repeat (destruct fl as [|[e|] fl]; simpl;
          [ split; [reflexivity |]; eexists;
            split_and!; [reflexivity | reflexivity | reflexivity | reflexivity |];
            repeat constructor
          | split; reflexivity
          | ]).
  split; [reflexivity |]. eexists.
  split_and!; [reflexivity | reflexivity | reflexivity | reflexivity |].
  repeat constructor.
Qed.

End MoreTeam.

(** ** A whole run of the script *)

Global Instance stays_present_preorder : PreOrder stays_present.
Proof.
  split.
  - intros w Hp. exact Hp.
  - intros w1 w2 w3 H1 H2 Hp. apply H2, H1, Hp.
Qed.

Ltac present_leaf :=
  unfold stays_present, present; simpl;
  first [ done | intros (? & ? & ? & ? & ? & ?); split_and!; by eauto ].

Ltac counts_leaf :=
  unfold same_on, runs_made, ingest_calls, agents_built; simpl; try reflexivity;
  rewrite ?List.filter_app, ?filter_app; simpl; by rewrite ?app_nil_r.

Lemma returns_run {A} (m : M A) w :
  returns m → present w → ∃ a w1, m w = (inr a, w1) ∧ present w1.
Proof.
  intros Hm Hp. destruct (Hm w Hp) as [Hp1 [a Ha]].
  exists a, (m w).2. split; [|done]. destruct (m w). simpl in *. by subst.
Qed.

Lemma returns_ret {A} (a : A) : returns (ret a).
Proof. intros w Hp. split; [done | by exists a]. Qed.

Lemma returns_bind {A B} (m : M A) (k : A → M B) :
  returns m → (∀ a, returns (k a)) → returns (bind m k).
Proof.
  intros Hm Hk w Hp. destruct (returns_run m w Hm Hp) as (a & w1 & Ha & Hp1).
  unfold bind. rewrite Ha. by apply Hk.
Qed.

Lemma returns_modify (f : World → World) :
  (∀ w, present w → present (f w)) → returns (modify f).
Proof. intros Hf w Hp. split; [by apply Hf | by exists tt]. Qed.

Lemma returns_attr {T} name (field : SessionState → option (option T)) :
  (∀ w, present w → is_Some (field (session_state w))) → returns (attr name field).
Proof.
  intros Hf w Hp. destruct (Hf w Hp) as [v Hv]. unfold attr. rewrite Hv.
  split; [done | by exists v].
Qed.

Lemma returns_try_except {A} (body : M A) (handler : PyExc → M A) :
  keeps stays_present body → (∀ e, returns (handler e)) →
  returns (try_except body handler).
Proof.
  intros Hb Hh w Hp. unfold try_except. specialize (Hb w).
  destruct (body w) as [[e|a] w1]; simpl in *.
  - apply Hh. by apply Hb.
  - split; [by apply Hb | by exists a].
Qed.

(** [sure special] follows a program that cannot raise. *)
Ltac sure special :=
  repeat (cbv zeta;
    first
    [ special
    | lazymatch goal with
      | |- returns (bind _ _) => refine (returns_bind _ _ _ _); [| intros ?]
      | |- returns (ret _) => refine (returns_ret _)
      | |- returns (attr _ _) =>
          refine (returns_attr _ _ _); unfold present; intros ? (? & ? & ? & ? & ? & ?);
          assumption
      | |- returns (modify _) => refine (returns_modify _ _); intros ?; present_leaf
      | |- returns (try_except _ _) =>
          refine (returns_try_except _ _ _ _); [walk fail present_leaf | intros ?]
      | |- returns (if ?b then _ else _) => destruct b
      | |- returns (match ?x with _ => _ end) => destruct x
      | |- returns ?m => let h := head_of m in unfold h
      end ]).

Section WholeRun.
Context `{Runtime}.

Lemma credential_inputs_returns ui : returns (credential_inputs ui).
Proof. sure fail. Qed.

Lemma connect_returns : returns connect.
Proof. sure fail. Qed.

Lemma analysis_section_returns ui t : returns (analysis_section ui t).
Proof. sure fail. Qed.

Lemma upload_block_returns f : returns (upload_block f).
Proof. sure fail. Qed.

Lemma attr_present {T} name (field : SessionState → option (option T)) w :
  is_Some (field (session_state w)) →
  attr name field w = (inr (default None (field (session_state w))), w).
Proof. intros [v Hv]. unfold attr. by rewrite Hv. Qed.

Lemma sidebar_document_post ui w :
  present w →
  ∃ l w',
    sidebar_document ui w = (inr l, w') ∧ present w'
    ∧ (l = None ∨ l = Some (uploaded ui, analysis_choice ui))
    ∧ (l = None → configured w' = false).
Proof.
  intros Hp. pose proof Hp as (Ho & _ & _ & Hv & _ & _).
  unfold sidebar_document.
  erewrite bind_run; [| by apply attr_present | reflexivity].
  erewrite bind_run; [| by apply attr_present | reflexivity].
  fold (configured w). destruct (configured w) eqn:Hc.
  - match goal with
    | |- context [bind ?m ?k w] =>
        assert (returns (bind m k)) as Hret
          by (sure ltac:(apply upload_block_returns));
        destruct (returns_run _ w Hret Hp) as (l & w' & Hrun & Hp');
        exists l, w'; rewrite Hrun
    end.
    apply bind_returns in Hrun as ([] & w1 & _ & Hrun).
    apply bind_returns in Hrun as ([] & w2 & _ & Hrun).
    apply bind_returns in Hrun as ([] & w3 & _ & Hrun).
    apply bind_returns in Hrun as ([] & w4 & _ & Hrun).
    unfold ret in Hrun. injection Hrun as <- <-.
    split_and!; [done | done | by right | done].
  - eexists None, _. split; [reflexivity |].
    split; [revert Hp; present_leaf |]. split; [by left |]. intros _. exact Hc.
Qed.

Lemma main_content_returns ui l w :
  present w → (l = None → configured w = false) →
  ∃ w', main_content ui l w = (inr tt, w') ∧ present w'.
Proof.
  intros Hp Hl. pose proof Hp as (Ho & _ & _ & Hv & Ht & _).
  unfold main_content.
  erewrite bind_run; [| by apply attr_present | reflexivity].
  erewrite bind_run; [| by apply attr_present | reflexivity].
  fold (configured w). destruct (configured w) eqn:Hc; cbn [negb].
  2: { eexists. split; [reflexivity |]. revert Hp. present_leaf. }
  destruct l as [[uploaded_file t]|]; [| by specialize (Hl eq_refl)].
  destruct (truthy_obj uploaded_file); cbn [negb].
  2: { eexists. split; [reflexivity |]. revert Hp. present_leaf. }
  erewrite bind_run; [| by apply attr_present | reflexivity].
  destruct (truthy_obj _).
  - destruct (returns_run _ w (analysis_section_returns ui t) Hp)
      as ([] & w' & Hrun & Hp'). eauto.
  - eexists. split; [reflexivity |]. revert Hp. present_leaf.
Qed.

Lemma init_session_state_key (w : World) :
  qdrant_api_key (session_state (init_session_state w).2)
  = Some (default None (qdrant_api_key (session_state w))).
Proof.
  destruct w as [[o k u v t b] env pg out tmp rem cl].
  unfold init_session_state, assign, modify, with_session. simpl.
  by destruct o, k, u, v, t, b.
Qed.

Lemma connect_keeps_key : keeps (same_on (qdrant_api_key ∘ session_state)) connect.
Proof. walk fail same_leaf. Qed.

Lemma sidebar_document_keeps_key ui :
  keeps (same_on (qdrant_api_key ∘ session_state)) (sidebar_document ui).
Proof. walk fail same_leaf. Qed.

Lemma main_content_keeps_key ui l :
  keeps (same_on (qdrant_api_key ∘ session_state)) (main_content ui l).
Proof. walk fail same_leaf. Qed.

(** The state in which [main] reaches the debug section. *)
Lemma main_reaches_debug ui w :
  ∃ w8,
    present w8
    ∧ qdrant_api_key (session_state w8)
      = Some (typed (qdrant_key_input ui)
                    (default None (qdrant_api_key (session_state w))))
    ∧ main ui w =
        ((when show_connection_details ui then debug_info);;
         when clear_clicked ui then clear_credentials) w8.
Proof.
  unfold main.
  erewrite bind_run; [| reflexivity | reflexivity].
  erewrite bind_run; [| reflexivity | reflexivity].
  erewrite bind_run; [| reflexivity | reflexivity].
  match goal with
  | |- context [bind (credential_inputs ui) _ ?W] =>
      assert (present W
              ∧ qdrant_api_key (session_state W)
                = Some (default None (qdrant_api_key (session_state w))))
        as [Hp2 Hk2]; [| remember W as w2 eqn:E2; clear E2]
  end.
  { pose proof (init_session_state_present
                  (with_page (λ p, p ++ [PageConfig "Legal Document Analyzer" "wide"]) w))
      as Hi.
    pose proof (init_session_state_key
                  (with_page (λ p, p ++ [PageConfig "Legal Document Analyzer" "wide"]) w))
      as Hk.
    split; [revert Hi; present_leaf | exact Hk]. }
  pose proof Hp2 as ([o Ho] & _ & [u Hu] & _).
  pose proof (credential_inputs_run ui w2 o _ u Ho Hk2 Hu) as Hrun3.
  erewrite bind_run; [| exact Hrun3 | reflexivity].
  match goal with
  | |- context [bind connect _ ?W] =>
      assert (present W
              ∧ qdrant_api_key (session_state W)
                = Some (typed (qdrant_key_input ui)
                              (default None (qdrant_api_key (session_state w)))))
        as [Hp3 Hk3]; [| clear Hrun3; remember W as w3 eqn:E3; clear E3]
  end.
  { split; [| reflexivity]. revert Hp2. present_leaf. }
  clear Hp2 Hk2 Ho Hu.
  destruct (returns_run _ _ connect_returns Hp3) as ([] & w4 & Hrun4 & Hp4).
  pose proof (connect_keeps_key w3) as Hk4. rewrite Hrun4 in Hk4.
  unfold same_on in Hk4. simpl in Hk4. rewrite Hk3 in Hk4.
  erewrite bind_run; [| exact Hrun4 | reflexivity].
  erewrite bind_run; [| reflexivity | reflexivity].
  match goal with
  | |- context [bind (sidebar_document ui) _ ?W] =>
      assert (present W) as Hp5 by (revert Hp4; present_leaf);
      assert (qdrant_api_key (session_state W) = qdrant_api_key (session_state w4))
        as Hk5 by reflexivity;
      remember W as w5 eqn:E5; clear E5
  end.
  destruct (sidebar_document_post ui w5 Hp5) as (l & w6 & Hrun6 & Hp6 & _ & Hl).
  pose proof (sidebar_document_keeps_key ui w5) as Hk6. rewrite Hrun6 in Hk6.
  unfold same_on in Hk6. simpl in Hk6.
  erewrite bind_run; [| exact Hrun6 | reflexivity].
  destruct (main_content_returns ui l w6 Hp6 Hl) as (w7 & Hrun7 & Hp7).
  pose proof (main_content_keeps_key ui l w6) as Hk7. rewrite Hrun7 in Hk7.
  unfold same_on in Hk7. simpl in Hk7.
  erewrite bind_run; [| exact Hrun7 | reflexivity].
  erewrite bind_run; [| reflexivity | reflexivity].
  erewrite bind_run; [| reflexivity | reflexivity].
  eexists. split_and!; last reflexivity.
  - revert Hp7. present_leaf.
  - simpl. congruence.
Qed.

Lemma clear_credentials_raises w : (clear_credentials w).1 = inl RerunException.
Proof. reflexivity. Qed.

(** What a run of [main] ends in.  With the connection-details box
    checked and no Qdrant API key stored or typed, slicing the key
    raises [TypeError]; otherwise a click on Clear Credentials ends the
    run with the rerun request; otherwise [main] returns.  No failure of
    the vector store, of the ingestion or of the agents escapes [main],
    and the names bound only in the sidebar are never read unbound. *)
Theorem main_result (ui : Widgets) (w : World) :
  (main ui w).1 =
    if show_connection_details ui
       && bool_decide (typed (qdrant_key_input ui)
                             (default None (qdrant_api_key (session_state w))) = None)
    then inl (TypeError "'NoneType' object is not subscriptable")
    else if clear_clicked ui then inl RerunException else inr tt.
Proof.
  destruct (main_reaches_debug ui w) as (w8 & Hp & Hk & ->).
  pose proof Hp as (_ & _ & Hu & Hv & _ & _).
  destruct (typed _ _) as [key|] eqn:Hkey.
  - rewrite bool_decide_eq_false_2 by done. rewrite andb_false_r.
    assert ((when show_connection_details ui then debug_info) w8
            = (inr tt, ((when show_connection_details ui then debug_info) w8).2)
            ∧ True) as [Hd _].
    { split; [| done]. destruct (show_connection_details ui); [| reflexivity].
      unfold debug_info.
      erewrite bind_run; [| by apply attr_present | reflexivity].
      erewrite bind_run; [| apply attr_present; by rewrite Hk | reflexivity].
      rewrite Hk. simpl.
      erewrite bind_run; [| by apply attr_present | reflexivity].
      reflexivity. }
    erewrite bind_run; [| exact Hd | reflexivity].
    destruct (clear_clicked ui); [apply clear_credentials_raises | reflexivity].
  - rewrite bool_decide_eq_true_2 by done. rewrite andb_true_r.
    destruct (show_connection_details ui).
    + unfold bind at 1, debug_info.
      erewrite bind_run; [| by apply attr_present | reflexivity].
      erewrite bind_run; [| apply attr_present; by rewrite Hk | reflexivity].
      rewrite Hk. reflexivity.
    + erewrite bind_run; [| reflexivity | reflexivity].
      destruct (clear_clicked ui); [apply clear_credentials_raises | reflexivity].
Qed.

Lemma keeps_bind_post {A B} (R : relation World) `{!PreOrder R} (S : A → Prop)
    (m : M A) (k : A → M B) :
  keeps R m → (∀ w a w', m w = (inr a, w') → S a) → (∀ a, S a → keeps R (k a)) →
  keeps R (bind m k).
Proof.
  intros Hm Hs Hk w. unfold bind.
  specialize (Hm w). destruct (m w) as [[e|a] w1] eqn:E; simpl in *; [done|].
  etrans; [exact Hm | apply Hk; eapply Hs; exact E].
Qed.

(** What the main content area finds in the names bound in the sidebar. *)
Lemma sidebar_document_locals ui w l w' :
  sidebar_document ui w = (inr l, w') →
  l = None ∨ l = Some (uploaded ui, analysis_choice ui).
Proof.
  unfold sidebar_document. intros Hrun.
  apply bind_returns in Hrun as (k & w1 & _ & Hrun).
  apply bind_returns in Hrun as (v & w2 & _ & Hrun).
  destruct (truthy_str k && truthy_obj v).
  - apply bind_returns in Hrun as ([] & w3 & _ & Hrun).
    apply bind_returns in Hrun as ([] & w4 & _ & Hrun).
    apply bind_returns in Hrun as ([] & w5 & _ & Hrun).
    apply bind_returns in Hrun as ([] & w6 & _ & Hrun).
    unfold ret in Hrun. injection Hrun as <- <-. by right.
  - apply bind_returns in Hrun as ([] & w3 & _ & Hrun).
    unfold ret in Hrun. injection Hrun as <- <-. by left.
Qed.

(** [from_sidebar ui special] is [special] together with the step that
    carries the sidebar's names into the main content area. *)
Ltac from_sidebar ui special :=
  first
  [ special
  | refine (keeps_bind_post _ (λ l, l = None ∨ l = Some (uploaded ui, analysis_choice ui))
              (sidebar_document ui) _ _ _ _);
    [ | intros ? ? ?; apply sidebar_document_locals
      | let l := fresh "l" in intros l [-> | ->] ] ].

(** Without an upload in this run, [main] stages and loads nothing,
    constructs no agent and asks the team nothing, whatever the session
    holds from earlier runs and whichever button is pressed. *)
Theorem main_without_upload (ui : Widgets) (w : World) :
  uploaded ui = None →
  ingest_calls (main ui w).2 = ingest_calls w
  ∧ agents_built (main ui w).2 = agents_built w
  ∧ runs_made (main ui w).2 = runs_made w.
Proof.
  intros Hup.
  assert (keeps (same_on ingest_calls) (main ui)) as H1.
  { walk ltac:(from_sidebar ui
                 ltac:(progress (rewrite ?Hup; cbn beta iota delta [truthy_obj negb])))
         counts_leaf. }
  assert (keeps (same_on agents_built) (main ui)) as H2.
  { walk ltac:(from_sidebar ui
                 ltac:(progress (rewrite ?Hup; cbn beta iota delta [truthy_obj negb])))
         counts_leaf. }
  assert (keeps (same_on runs_made) (main ui)) as H3.
  { walk ltac:(from_sidebar ui
                 ltac:(progress (rewrite ?Hup; cbn beta iota delta [truthy_obj negb])))
         counts_leaf. }
  split_and!; [apply H1 | apply H2 | apply H3].
Qed.

(** The team is asked nothing unless Analyze was clicked in this run,
    and nothing either when the custom query was chosen and left empty:
    [main] then makes no call of [Agent.run]. *)
Theorem main_without_analyze (ui : Widgets) (w : World) :
  analyze_clicked ui = false
  ∨ (analysis_choice ui = CustomQuery ∧ custom_query_input ui = "") →
  runs_made (main ui w).2 = runs_made w.
Proof.
  intros Hno. cut (keeps (same_on runs_made) (main ui)); [intros Hk; apply Hk |].
  destruct Hno as [Hclick | [Hcustom Hquery]].
  - walk ltac:(progress (rewrite ?Hclick; cbn beta iota)) counts_leaf.
  - walk ltac:(from_sidebar ui
                 ltac:(progress (rewrite ?Hcustom, ?Hquery;
                                 cbn beta iota
                                   delta [is_custom truthy_str String.eqb negb andb])))
         counts_leaf.
Qed.

End WholeRun.

(** ** Runs on the concrete platform, continued *)

Lemma result_gives_outcome {A B} (out : A * B) (a : A) : out.1 = a → out = (a, out.2).
Proof. destruct out. simpl. by intros ->. Qed.

Lemma init_qdrant_needs_credentials_witness :
  @init_qdrant Lab.runtime Lab.started_world
  = (inl (ValueError "Qdrant API key not provided"), Lab.started_world).
Proof.
  apply (@init_qdrant_needs_credentials Lab.runtime Lab.started_world None None);
    reflexivity.
Defined.


Lemma process_document_needs_key_witness :
  @process_document Lab.runtime Lab.contract_pdf None Lab.started_world
  = (inl (ValueError "OpenAI API key not provided"), Lab.started_world).
Proof.
  apply (@process_document_needs_key Lab.runtime Lab.contract_pdf None
           Lab.started_world None); reflexivity.
Defined.

Lemma process_document_connection_test_witness :
  (@process_document Lab.runtime Lab.contract_pdf (Some Lab.the_vdb)
     Lab.unreachable_world).1
  = inl (Exception "Qdrant connection test failed: timed out").
Proof.
  rewrite (@process_document_connection_test Lab.runtime Lab.contract_pdf Lab.the_vdb
             Lab.unreachable_world "sk-test-openai-key" Lab.timed_out []);
    [reflexivity | reflexivity | discriminate | reflexivity].
Defined.


Lemma process_document_returns_stale_path_witness :
  tempdirs (@process_document Lab.runtime Lab.contract_pdf (Some Lab.the_vdb)
              Lab.connected_world).2 !! Lab.tmp_name ∅ = None.
Proof.
  destruct (@process_document_returns_stale_path Lab.runtime Lab.contract_pdf
              (Some Lab.the_vdb) Lab.connected_world
              (@process_document Lab.runtime Lab.contract_pdf (Some Lab.the_vdb)
                 Lab.connected_world).2
              (mkKB (Lab.tmp_name ∅) (Some Lab.the_vdb) (mkReader true)
                    (mkEmbedder "text-embedding-3-small" (Some "sk-test-openai-key")) true))
    as (_ & Hgone & _); [apply result_gives_outcome; vm_compute; reflexivity | exact Hgone].
Defined.


Lemma credential_inputs_store_witness :
  openai_api_key (session_state (credential_inputs Lab.typing_ui Lab.keyed_world).2)
  = Some (Some "sk-another-openai-key")
  ∧ qdrant_api_key (session_state (credential_inputs Lab.typing_ui Lab.keyed_world).2)
    = Some (Some "qdrant-secret-key-0123456789").
Proof.
  rewrite (credential_inputs_store Lab.typing_ui Lab.keyed_world
             (Some "sk-test-openai-key") (Some "qdrant-secret-key-0123456789")
             (Some "https://qdrant.example:6333"));
    [split; reflexivity | reflexivity | reflexivity | reflexivity].
Defined.

Lemma connect_once_witness :
  @connect Lab.runtime Lab.connected_world = (inr tt, Lab.connected_world).
Proof.
  apply (@connect_once Lab.runtime Lab.connected_world
           (Some "qdrant-secret-key-0123456789") (Some "https://qdrant.example:6333")
           (Some Lab.the_vdb)); reflexivity.
Defined.

Lemma analysis_stops_at_first_failure_witness :
  page (@analysis_block Lab.runtime RiskAssessment None
          (Lab.ready_world [Some Lab.timed_out])).2
  = [Error "Error during analysis: timed out"].
Proof.
  rewrite (@analysis_stops_at_first_failure Lab.runtime RiskAssessment None
             (Lab.ready_world [Some Lab.timed_out]) "sk-test-openai-key" Lab.lead
             Lab.timed_out
             (mkRemote {["legal_knowledge" := mkCollection 1536 "Cosine" []]} []));
    reflexivity.
Defined.

Lemma testqdrant_existing_witness :
  collections (remote (testqdrant "https://qdrant.example:6333" "qdrant-secret-key"
                         Lab.connected_world).2)
  = collections (remote Lab.connected_world)
  ∧ last (stdout (testqdrant "https://qdrant.example:6333" "qdrant-secret-key"
                    Lab.connected_world).2)
    = Some "Collection 'legal_knowledge' already exists".
Proof.
  apply (testqdrant_existing "https://qdrant.example:6333" "qdrant-secret-key"
           Lab.connected_world
           (mkCollection 1536 "Cosine" [mkPoint "old.pdf" 0 "an older document"]));
    reflexivity.
Defined.

Lemma main_without_upload_witness :
  ingest_calls (@main Lab.runtime Lab.analyze_ui (Lab.ready_world [])).2
  = ingest_calls (Lab.ready_world [])
  ∧ agents_built (@main Lab.runtime Lab.analyze_ui (Lab.ready_world [])).2
    = agents_built (Lab.ready_world [])
  ∧ runs_made (@main Lab.runtime Lab.analyze_ui (Lab.ready_world [])).2
    = runs_made (Lab.ready_world []).
Proof.
  apply (@main_without_upload Lab.runtime Lab.analyze_ui (Lab.ready_world [])).
  reflexivity.
Defined.

Lemma main_without_analyze_witness :
  runs_made (@main Lab.runtime Lab.upload_ui Lab.connected_world).2
  = runs_made Lab.connected_world.
Proof.
  apply (@main_without_analyze Lab.runtime Lab.upload_ui Lab.connected_world).
  left. reflexivity.
Defined.
